(** * caddy-admin-adapt: the [/adapt] admin endpoint

    A shallow embedding of [adapt.go] (package [adapt]): the request handler
    [handleAdapt] and the content-type dispatcher [adaptByContentType].

    Go values are modelled as follows.
    - a Go [string] is a Rocq [string] (a sequence of bytes);
    - a Go slice is [option (list A)], with [None] the [nil] slice;
    - a Go [error] is [option error], with [None] the [nil] error;
    - the adapter registry [caddyconfig.configAdapters] is a [gmap];
    - effects (buffer pool, body read, adapter calls, logging, response
      writes) are recorded in order in a trace of [event]s. *)

From Stdlib Require Import ZArith NArith Ascii String List Lia.
From stdpp Require Import base option list strings gmap.

Local Open Scope Z_scope.

(** ** Go slices and errors *)

Abbreviation slice A := (option (list A)) (only parsing).

Definition len {A : Type} (s : slice A) : nat :=
  match s with
  | Some l => length l
  | None => 0%nat
  end.

(** [error] values met in this file: the result of [fmt.Errorf] /
    [errors.New] (a message), and [caddy.APIError]. *)
#[local] Set Warnings "-register-all".

Inductive error : Type :=
| errorString (s : string)
| APIError (HTTPStatus : Z) (Err : option error) (Message : string).

(** [func (e APIError) Error() string] of package caddy, and the [Error]
    method of an [errorString]. *)
Fixpoint Error (e : error) : string :=
  match e with
  | errorString s => s
  | APIError _ (Some err) _ => Error err
  | APIError _ None msg => msg
  end.

(** The HTTP status attached to an error value, if it is an [APIError]. *)
Definition HTTPStatusOf (e : error) : option Z :=
  match e with
  | APIError st _ _ => Some st
  | errorString _ => None
  end.

Definition StatusBadRequest : Z := 400.
Definition StatusMethodNotAllowed : Z := 405.
Definition MethodPost : string := "POST".

(** ** Package [strings] of the Go standard library *)

Module Strings.

Fixpoint take (n : nat) (s : string) : string :=
  match n, s with
  | S n', String c s' => String c (take n' s')
  | _, _ => EmptyString
  end.

Fixpoint drop (n : nat) (s : string) : string :=
  match n, s with
  | S n', String _ s' => drop n' s'
  | _, _ => s
  end.

(** [s[i:]] and [s[:i]] for an index already known to be in range. *)
Definition from (i : Z) (s : string) : string := drop (Z.to_nat i) s.
Definition upto (i : Z) (s : string) : string := take (Z.to_nat i) s.

Definition HasPrefix (s prefix : string) : bool := String.prefix prefix s.

(** [len(s) >= len(suffix) && s[len(s)-len(suffix):] == suffix] *)
Definition HasSuffix (s suffix : string) : bool :=
  (String.length suffix <=? String.length s)%nat &&
  String.eqb (drop (String.length s - String.length suffix) s) suffix.

Fixpoint index_from (s sep : string) : option nat :=
  if String.prefix sep s then Some 0%nat
  else match s with
       | EmptyString => None
       | String _ s' => S <$> index_from s' sep
       end.

(** [strings.Index]: the first byte offset of [sep] in [s], or [-1]. *)
Definition Index (s sep : string) : Z :=
  match index_from s sep with
  | Some i => Z.of_nat i
  | None => -1
  end.

(** [strings.Cut] *)
Definition Cut (s sep : string) : string * string * bool :=
  let i := Index s sep in
  if 0 <=? i
  then (upto i s, from (i + Z.of_nat (String.length sep)) s, true)
  else (s, EmptyString, false).

Fixpoint forallb (p : ascii -> bool) (s : string) : bool :=
  match s with
  | EmptyString => true
  | String c s' => p c && forallb p s'
  end.

Fixpoint existsb (p : ascii -> bool) (s : string) : bool :=
  match s with
  | EmptyString => false
  | String c s' => p c || existsb p s'
  end.

Fixpoint map (f : ascii -> ascii) (s : string) : string :=
  match s with
  | EmptyString => EmptyString
  | String c s' => String (f c) (map f s')
  end.

(** [c < utf8.RuneSelf] *)
Definition isASCIIbyte (c : ascii) : bool := (N_of_ascii c <? 128)%N.
Definition isASCII (s : string) : bool := forallb isASCIIbyte s.

(** ['A' <= c && c <= 'Z'] *)
Definition isUpper (c : ascii) : bool :=
  ((65 <=? N_of_ascii c) && (N_of_ascii c <=? 90))%N.

(** [c += 'a' - 'A'] on an upper-case byte *)
Definition lowerByte (c : ascii) : ascii :=
  if isUpper c then ascii_of_N (N_of_ascii c + 32) else c.

(** [asciiSpace]: tab, LF, VT, FF, CR and space. *)
Definition isAsciiSpace (c : ascii) : bool :=
  let n := N_of_ascii c in
  ((9 <=? n) && (n <=? 13) || (n =? 32))%N.

Fixpoint trimLeft (s : string) : string :=
  match s with
  | String c s' => if isAsciiSpace c then trimLeft s' else s
  | EmptyString => EmptyString
  end.

Fixpoint trimRight (s : string) : string :=
  match s with
  | EmptyString => EmptyString
  | String c s' =>
      match trimRight s' with
      | EmptyString => if isAsciiSpace c then EmptyString
                       else String c EmptyString
      | t => String c t
      end
  end.

Section Unicode.
(** The rune-by-rune paths of [ToLower] and [TrimSpace], which Go takes
    only on a string holding a byte [>= utf8.RuneSelf]:
    [strings.Map(unicode.ToLower, s)] and
    [strings.TrimFunc(s, unicode.IsSpace)]. The Unicode tables are not
    modelled. *)
Variable Map_unicode_ToLower : string -> string.
Variable TrimFunc_unicode_IsSpace : string -> string.

Definition ToLower (s : string) : string :=
  if isASCII s
  then if existsb isUpper s then map lowerByte s else s
  else Map_unicode_ToLower s.

Definition TrimSpace (s : string) : string :=
  if isASCII s
  then trimRight (trimLeft s)
  else TrimFunc_unicode_IsSpace s.
End Unicode.

End Strings.

(** ** Package [mime] of the Go standard library: [ParseMediaType] *)

Module mime.

(** The tspecials of RFC 1521 and RFC 2045: parentheses, angle brackets,
    at sign, comma, semicolon, colon, backslash, double quote, slash,
    square brackets, question mark and equals sign. *)
Definition isTSpecial (c : ascii) : bool :=
  let n := N_of_ascii c in
  ((n =? 40) || (n =? 41) || (n =? 60) || (n =? 62) || (n =? 64) ||
   (n =? 44) || (n =? 59) || (n =? 58) || (n =? 92) || (n =? 34) ||
   (n =? 47) || (n =? 91) || (n =? 93) || (n =? 63) || (n =? 61))%N.

(** [r > 0x20 && r < 0x7f && !isTSpecial(r)] *)
Definition isTokenChar (c : ascii) : bool :=
  ((32 <? N_of_ascii c) && (N_of_ascii c <? 127))%N && negb (isTSpecial c).

(** [consumeToken]: the longest prefix of token characters, and the rest.
    A byte [>= 0x80] starts a rune that is not a token character, so the
    split is at a byte offset. *)
Fixpoint consumeToken (v : string) : string * string :=
  match v with
  | String c v' =>
      if isTokenChar c
      then let '(token, rest) := consumeToken v' in (String c token, rest)
      else (EmptyString, v)
  | EmptyString => (EmptyString, EmptyString)
  end.

Definition checkMediaTypeDisposition (s : string) : option error :=
  let '(typ, rest) := consumeToken s in
  if String.eqb typ "" then Some (errorString "mime: no media type")
  else if String.eqb rest "" then None
  else if negb (Strings.HasPrefix rest "/")
  then Some (errorString "mime: expected slash after first token")
  else
    let '(subtype, rest) := consumeToken (Strings.from 1 rest) in
    if String.eqb subtype ""
    then Some (errorString "mime: expected token after slash")
    else if negb (String.eqb rest "")
    then Some (errorString "mime: unexpected content after media subtype")
    else None.

Definition ErrInvalidMediaParameter : error :=
  errorString "mime: invalid media parameter".

(** The three ways the parameter loop of [ParseMediaType] ends: every
    parameter parsed; [ErrInvalidMediaParameter], returned together with
    the media type; a duplicate parameter name, returned with an empty
    media type. *)
Inductive paramsOutcome : Type :=
| ParamsOk
| ParamsInvalid
| ParamsDuplicate.

Section ParseMediaType.
Variable Map_unicode_ToLower : string -> string.
Variable TrimFunc_unicode_IsSpace : string -> string.
(** The parameter loop run on [v[len(base):]] when that is not empty
    ([consumeMediaParam], RFC 2231 continuations, the duplicate check):
    the parameters themselves are dropped by the caller, only the way
    the loop ends is kept. *)
Variable mediaParams : string -> paramsOutcome.

Definition ParseMediaType (v : string) : string * option error :=
  let '(base, _, _) := Strings.Cut v ";" in
  let mediatype :=
    Strings.TrimSpace TrimFunc_unicode_IsSpace
      (Strings.ToLower Map_unicode_ToLower base) in
  match checkMediaTypeDisposition mediatype with
  | Some err => (EmptyString, Some err)
  | None =>
      let v := Strings.from (Z.of_nat (String.length base)) v in
      if (0 <? String.length v)%nat
      then match mediaParams v with
           | ParamsOk => (mediatype, None)
           | ParamsInvalid => (mediatype, Some ErrInvalidMediaParameter)
           | ParamsDuplicate =>
               (EmptyString,
                Some (errorString "mime: duplicate parameter name"))
           end
      else (mediatype, None)
  end.
End ParseMediaType.

End mime.

(** ** Effects *)

(** What the handler does to the world, in program order. *)
Inductive event : Type :=
| EvPoolGet                                     (* bufPool.Get() *)
| EvBufReset                                    (* buf.Reset() *)
| EvPoolPut                                     (* bufPool.Put(buf) *)
| EvCopy (p : list Byte.byte)                   (* io.Copy(buf, r.Body) *)
| EvAdapt (adapterName : string) (body : slice Byte.byte)
                                                (* cfgAdapter.Adapt(..) *)
| EvLogError (logger msg : string)              (* Log().Named(..).Error(..) *)
| EvHeaderAdd (key value : string)              (* w.Header().Add(..) *)
| EvWrite (p : slice Byte.byte).                (* w.Write(p) *)

(** A computation returns its value together with the events it performed. *)
Definition M (A : Type) : Type := (list event * A)%type.

#[global] Instance M_ret : MRet M := λ A x, ([], x).
#[global] Instance M_bind : MBind M :=
  λ A B f m, let '(t, x) := m in let '(t', y) := f x in (t ++ t', y).

Definition emit (e : event) : M unit := ([e], tt).

(** [defer]: the event is performed when the enclosing function returns. *)
Definition defer {A : Type} (e : event) (m : M A) : M A :=
  x ← m; emit e;; mret x.

Definition trace {A : Type} (m : M A) : list event := fst m.
Definition value {A : Type} (m : M A) : A := snd m.

(** ** Package [caddyconfig]: warnings, adapters and their registry *)

Record Warning : Type := {
  File : string;
  Line : Z;
  Directive : string;
  Message : string
}.

Section Adapt.

(** The values of Go's [interface{}] held by an adapter's option map. *)
Variable any : Type.

(** [caddyconfig.Adapter]: an interface with the single method [Adapt]. *)
Record Adapter : Type := {
  Adapt : slice Byte.byte -> option (gmap string any) ->
          slice Byte.byte * slice Warning * option error
}.

(** [mime.ParseMediaType], as the dispatcher sees it: the media type and
    the error (the parameter map is dropped at the call). *)
Variable ParseMediaType : string -> string * option error.

(** [caddyconfig.configAdapters], the process-wide registry. *)
Variable configAdapters : gmap string Adapter.

(** [json.Marshal] on a warning list. *)
Variable json_Marshal : slice Warning -> slice Byte.byte * option error.

(** [caddyconfig.GetAdapter]: [configAdapters[name]], nil when unbound. *)
Definition GetAdapter (name : string) : option Adapter :=
  configAdapters !! name.

Definition callAdapt (adapterName : string) (cfgAdapter : Adapter)
    (body : slice Byte.byte) :
    M (slice Byte.byte * slice Warning * option error) :=
  emit (EvAdapt adapterName body);; mret (Adapt cfgAdapter body None).

(** *** [adaptByContentType] *)
Definition adaptByContentType (contentType : string)
    (body : slice Byte.byte) :
    M (slice Byte.byte * slice Warning * option error) :=
  (* assume JSON as the default *)
  if String.eqb contentType "" then mret (body, None, None)
  else
    let '(ct, err) := ParseMediaType contentType in
    match err with
    | Some err =>
        mret (None, None,
              Some (APIError StatusBadRequest
                      (Some (errorString
                               ("invalid Content-Type: " +:+ Error err)))
                      ""))
    | None =>
        (* if already JSON, no need to adapt *)
        if Strings.HasSuffix ct "/json" then mret (body, None, None)
        else
          (* adapter name should be suffix of MIME type *)
          let slashIdx := Strings.Index ct "/" in
          if slashIdx <? 0
          then mret (None, None, Some (errorString "malformed Content-Type"))
          else
            let adapterName := Strings.from (slashIdx + 1) ct in
            match GetAdapter adapterName with
            | None =>
                mret (None, None,
                      Some (errorString
                              ("unrecognized config adapter '"
                                 +:+ adapterName +:+ "'")))
            | Some cfgAdapter =>
                '(result, warnings, err) ←
                  callAdapt adapterName cfgAdapter body;
                match err with
                | Some err =>
                    mret (None, None,
                          Some (errorString
                                  ("adapting config using " +:+ adapterName
                                     +:+ " adapter: " +:+ Error err)))
                | None => mret (result, warnings, None)
                end
            end
    end.

(** *** The request *)

(** [r.Body] as [io.Copy] drains it: the bytes it delivers, and how the
    stream ends ([None] for [io.EOF], otherwise the read error). *)
Record Reader : Type := {
  data : list Byte.byte;
  readErr : option error
}.

Record Request : Type := {
  Method : string;
  Header : gmap string (list string);
  Body : Reader
}.

(** [http.Header.Get] on a key in canonical form. *)
Definition Header_Get (h : gmap string (list string)) (key : string) : string :=
  match h !! key with
  | Some (v :: _) => v
  | _ => EmptyString
  end.

(** *** [handleAdapt] *)
Definition handleAdapt (r : Request) : M (option error) :=
  if negb (String.eqb (Method r) MethodPost)
  then mret (Some (APIError StatusMethodNotAllowed
                     (Some (errorString "method not allowed")) ""))
  else
    emit EvPoolGet;;
    emit EvBufReset;;
    defer EvPoolPut (
      emit (EvCopy (data (Body r)));;
      match readErr (Body r) with
      | Some err =>
          mret (Some (APIError StatusBadRequest
                        (Some (errorString
                                 ("reading request body: " +:+ Error err)))
                        ""))
      | None =>
          (* buf.Bytes(): the bytes read. For an empty body Go can give
             the nil slice here (a buffer that never grew); the model
             gives the empty one, with the same bytes. *)
          let body : slice Byte.byte := Some (data (Body r)) in
          let respond (body : slice Byte.byte) : M (option error) :=
            emit (EvHeaderAdd "Content-Type" "application/json");;
            emit (EvWrite body);;
            mret None in
          (* if the config is formatted other than Caddy's native
             JSON, we need to adapt it before loading it *)
          let ctHeader := Header_Get (Header r) "Content-Type" in
          if negb (String.eqb ctHeader "")
          then
            '(result, warnings, err) ← adaptByContentType ctHeader body;
            match err with
            | Some err =>
                mret (Some (APIError StatusBadRequest (Some err) ""))
            | None =>
                (if (0 <? len warnings)%nat
                 then
                   let '(_, err) := json_Marshal warnings in
                   match err with
                   | Some err =>
                       emit (EvLogError "admin.api.load" (Error err))
                   | None => mret tt
                   end
                 else mret tt);;
                respond result
            end
          else respond body
      end).

End Adapt.

Arguments Adapt {any} _ _ _.
Arguments Build_Adapter {any} _.

Arguments GetAdapter {any} _ _.
Arguments callAdapt {any} _ _ _.
Arguments adaptByContentType {any} _ _ _ _.
Arguments handleAdapt {any} _ _ _ _.

(** The adapter name the dispatcher extracts from a parsed media type:
    [ct[strings.Index(ct, "/")+1:]]. *)
Definition adapterNameOf (ct : string) : string :=
  Strings.from (Strings.Index ct "/" + 1) ct.

(** The dispatcher from the registry lookup on, for a given adapter name:
    [caddyconfig.GetAdapter], the nil test, the call of [Adapt] and the
    wrapping of its error. *)
Definition lookupAndAdapt {any : Type}
    (configAdapters : gmap string (Adapter any)) (adapterName : string)
    (body : slice Byte.byte) :
    M (slice Byte.byte * slice Warning * option error) :=
  match GetAdapter configAdapters adapterName with
  | None =>
      mret (None, None,
            Some (errorString
                    ("unrecognized config adapter '"
                       +:+ adapterName +:+ "'")))
  | Some cfgAdapter =>
      '(result, warnings, err) ← callAdapt adapterName cfgAdapter body;
      match err with
      | Some err =>
          mret (None, None,
                Some (errorString
                        ("adapting config using " +:+ adapterName
                           +:+ " adapter: " +:+ Error err)))
      | None => mret (result, warnings, None)
      end
  end.

(** The media-type portion of a content type (the text before the first
    semicolon) with its ASCII letters in lower case, followed by the
    parameters as they are. *)
Definition lowerMediaType (v : string) : string :=
  let '(base, _, _) := Strings.Cut v ";" in
  Strings.map Strings.lowerByte base
    +:+ Strings.from (Z.of_nat (String.length base)) v.

(** What serializing the warnings leaves behind in [handleAdapt]: nothing
    without warnings or when [json.Marshal] succeeds, one log entry when it
    fails. *)
Definition marshalEvents
    (json_Marshal : slice Warning -> slice Byte.byte * option error)
    (warnings : slice Warning) : list event :=
  if (0 <? len warnings)%nat
  then match snd (json_Marshal warnings) with
       | Some err => [EvLogError "admin.api.load" (Error err)]
       | None => []
       end
  else [].

(** The text of a content type before its first semicolon. *)
Definition baseOf (v : string) : string :=
  let '(base, _, _) := Strings.Cut v ";" in base.

(** ** Sample collaborators

    Concrete instances of the external parts, used to run the model. *)
Module Sample.

(** [mime.ParseMediaType] with the Unicode paths left as the identity and
    a parameter loop that accepts everything: exact on ASCII content
    types whose parameters are well formed. *)
Definition ParseMediaType : string -> string * option error :=
  mime.ParseMediaType (fun s => s) (fun s => s) (fun _ => mime.ParamsOk).

(** The bytes of [{"a":1}] and of [a: 1]. *)
Definition json_a1 : list Byte.byte :=
  [Byte.x7b; Byte.x22; Byte.x61; Byte.x22; Byte.x3a; Byte.x31; Byte.x7d].
Definition yaml_a1 : list Byte.byte :=
  [Byte.x61; Byte.x3a; Byte.x20; Byte.x31].

Definition warn : Warning :=
  {| File := "config.yaml"; Line := 1; Directive := "a";
     Message := "deprecated key" |}.

(** An adapter that converts every input to [{"a":1}] with one warning. *)
Definition yamlAdapter : Adapter unit :=
  {| Adapt := fun _ _ => (Some json_a1, Some [warn], None) |}.

(** An adapter that rejects every input. *)
Definition brokenAdapter : Adapter unit :=
  {| Adapt := fun _ _ =>
       (None, None, Some (errorString "line 1: unexpected token")) |}.

Definition configAdapters : gmap string (Adapter unit) :=
  {[ "yaml" := yamlAdapter; "broken" := brokenAdapter ]}.

(** A [json.Marshal] that succeeds with an empty document, and one that
    fails. *)
Definition marshalOk (_ : slice Warning) : slice Byte.byte * option error :=
  (Some [], None).
Definition marshalFail (_ : slice Warning) : slice Byte.byte * option error :=
  (None, Some (errorString "json: unsupported value")).

Definition request (method contentType : string) (body : list Byte.byte) :
    Request :=
  {| Method := method;
     Header := {[ "Content-Type" := [contentType] ]};
     Body := {| data := body; readErr := None |} |}.

End Sample.

(** ** Classes of events *)

Definition isPoolEvent (e : event) : bool :=
  match e with
  | EvPoolGet | EvPoolPut => true
  | _ => false
  end.

Definition isLogEvent (e : event) : bool :=
  match e with
  | EvLogError _ _ => true
  | _ => false
  end.

(** The events that reach the client: header changes and body writes. *)
Definition isResponseEvent (e : event) : bool :=
  match e with
  | EvHeaderAdd _ _ | EvWrite _ => true
  | _ => false
  end.

(** More sample values: a body whose read is cut short, and a request that
    declares no content type. *)
Module Sample2.

Definition cutRequest (contentType : string) (body : list Byte.byte) :
    Request :=
  {| Method := "POST";
     Header := {[ "Content-Type" := [contentType] ]};
     Body := {| data := body;
                readErr := Some (errorString "unexpected EOF") |} |}.

Definition bareRequest (body : list Byte.byte) : Request :=
  {| Method := "POST";
     Header := {[ "Accept" := ["*/*"] ]};
     Body := {| data := body; readErr := None |} |}.

(** A parameter loop that rejects every parameter section. *)
Definition strictParse : string -> string * option error :=
  mime.ParseMediaType (fun s => s) (fun s => s)
    (fun _ => mime.ParamsInvalid).

(** [mime.ParseMediaType] with a rune-by-rune [ToLower] that lower-cases
    the ASCII letters and keeps every other byte. *)
Definition lowerParse : string -> string * option error :=
  mime.ParseMediaType (Strings.map Strings.lowerByte) (fun s => s)
    (fun _ => mime.ParamsOk).

End Sample2.

(** ** Running the model on the end-to-end cases *)

Example run_json :
  handleAdapt Sample.ParseMediaType Sample.configAdapters Sample.marshalOk
    (Sample.request "POST" "application/json" Sample.json_a1)
  = ([EvPoolGet; EvBufReset; EvCopy Sample.json_a1;
      EvHeaderAdd "Content-Type" "application/json";
      EvWrite (Some Sample.json_a1); EvPoolPut], None).
Proof. vm_compute. reflexivity. Qed.

Example run_yaml :
  handleAdapt Sample.ParseMediaType Sample.configAdapters Sample.marshalOk
    (Sample.request "POST" "application/yaml" Sample.yaml_a1)
  = ([EvPoolGet; EvBufReset; EvCopy Sample.yaml_a1;
      EvAdapt "yaml" (Some Sample.yaml_a1);
      EvHeaderAdd "Content-Type" "application/json";
      EvWrite (Some Sample.json_a1); EvPoolPut], None).
Proof. vm_compute. reflexivity. Qed.

Example run_toml :
  value (handleAdapt Sample.ParseMediaType Sample.configAdapters
           Sample.marshalOk (Sample.request "POST" "application/toml" []))
  = Some (APIError 400
            (Some (errorString "unrecognized config adapter 'toml'")) "").
Proof. vm_compute. reflexivity. Qed.

Example run_get :
  value (handleAdapt Sample.ParseMediaType Sample.configAdapters
           Sample.marshalOk (Sample.request "GET" "application/json" []))
  = Some (APIError 405 (Some (errorString "method not allowed")) "").
Proof. vm_compute. reflexivity. Qed.

Example run_parse_params :
  Sample.ParseMediaType " Text/Plain ; charset=utf-8" = ("text/plain", None).
Proof. vm_compute. reflexivity. Qed.

Example run_parse_bad :
  Sample.ParseMediaType "a/b/c"
  = ("", Some (errorString "mime: unexpected content after media subtype")).
Proof. vm_compute. reflexivity. Qed.

(** ** Facts about the string primitives *)

Lemma prefix_byte (a c : ascii) (s : string) :
  String.prefix (String a "") (String c s) = Ascii.eqb a c.
Proof.
  change (String.prefix (String a "") (String c s))
    with (match ascii_dec a c with
          | left _ => String.prefix "" s
          | right _ => false
          end).
  destruct (ascii_dec a c) as [->|Hn].
  - rewrite Ascii.eqb_refl. destruct s; reflexivity.
  - symmetry. apply Ascii.eqb_neq. exact Hn.
Qed.

(** [index_from] for a separator of one byte. *)
Lemma index_from_byte (a c : ascii) (s : string) :
  Strings.index_from (String c s) (String a "")
  = if Ascii.eqb a c then Some 0%nat
    else S <$> Strings.index_from s (String a "").
Proof.
  change (Strings.index_from (String c s) (String a ""))
    with (if String.prefix (String a "") (String c s) then Some 0%nat
          else S <$> Strings.index_from s (String a "")).
  rewrite prefix_byte. reflexivity.
Qed.

Lemma drop_slash_index (k : nat) (s t : string) :
  Strings.drop k s = String "/" t ->
  exists i, Strings.index_from s "/" = Some i.
Proof.
  revert s. induction k as [|k IH]; intros s Hd.
  - destruct s as [|c s]; [discriminate|].
    injection Hd as -> _. rewrite index_from_byte. cbn. eauto.
  - destruct s as [|c s]; [discriminate|].
    destruct (IH s Hd) as [i Hi]. rewrite index_from_byte, Hi.
    destruct (Ascii.eqb "/" c); cbn; eauto.
Qed.

(** A media type that ends in ["/json"] holds a slash. *)
Lemma HasSuffix_json_Index (ct : string) :
  Strings.HasSuffix ct "/json" = true -> 0 <= Strings.Index ct "/".
Proof.
  unfold Strings.HasSuffix, Strings.Index. intros H.
  apply andb_prop in H as [_ H]. apply String.eqb_eq in H.
  destruct (drop_slash_index _ _ _ H) as [i ->]. lia.
Qed.

Lemma noslash_not_json (ct : string) :
  Strings.Index ct "/" < 0 -> Strings.HasSuffix ct "/json" = false.
Proof.
  intros H. destruct (Strings.HasSuffix ct "/json") eqn:E; [|reflexivity].
  apply HasSuffix_json_Index in E. lia.
Qed.

(** ** The dispatcher *)

Section Dispatcher.

Context {any : Type}.
Variable ParseMediaType : string -> string * option error.
Variable configAdapters : gmap string (Adapter any).


Local Ltac nonempty H :=
  match type of H with
  | ?ct <> EmptyString =>
      let E := fresh in
      destruct (String.eqb_spec ct EmptyString) as [E|_]; [destruct (H E)|]
  end.

(** C5. With the empty string as content type the body is returned as it
    is, with no warnings, no error, and nothing else done. *)
Theorem C5_empty_content_type (body : slice Byte.byte) :
  adaptByContentType ParseMediaType configAdapters
    "" body
  = ([], (body, None, None)).
Proof. reflexivity. Qed.

(** C1 (amended). When the content type parses to a media type that ends
    in ["/json"], the body is returned as it is, with no warnings, no
    error, and no adapter called. *)
Theorem C1_json_passthrough (contentType ct : string)
    (body : slice Byte.byte) :
  ParseMediaType contentType = (ct, None) ->
  Strings.HasSuffix ct "/json" = true ->
  adaptByContentType ParseMediaType configAdapters
    contentType body
  = ([], (body, None, None)).
Proof.
  intros Hp Hj. unfold adaptByContentType.
  destruct (String.eqb contentType ""); [reflexivity|].
  rewrite Hp, Hj. reflexivity.
Qed.

(** C3. A non-JSON content type whose adapter name is bound in the
    registry, with an adapter that succeeds: the adapter is called once,
    on the body, and its output and warnings are returned as they are. *)
Theorem C3_adapter_output (contentType ct : string)
    (body result : slice Byte.byte) (warnings : slice Warning)
    (cfgAdapter : Adapter any) :
  contentType <> "" ->
  ParseMediaType contentType = (ct, None) ->
  Strings.HasSuffix ct "/json" = false ->
  0 <= Strings.Index ct "/" ->
  configAdapters !! adapterNameOf ct = Some cfgAdapter ->
  Adapt cfgAdapter body None = (result, warnings, None) ->
  adaptByContentType ParseMediaType configAdapters contentType body
  = ([EvAdapt (adapterNameOf ct) body], (result, warnings, None)).
Proof.
  intros Hne Hp Hj Hi Hreg Hrun. unfold adaptByContentType.
  nonempty Hne. rewrite Hp, Hj.
  destruct (Z.ltb_spec (Strings.Index ct "/") 0) as [? | _]; [lia|].
  unfold GetAdapter. fold (adapterNameOf ct). rewrite Hreg.
  unfold callAdapt. cbn. rewrite Hrun. reflexivity.
Qed.

(** C4. A non-JSON content type whose adapter name is not bound in the
    registry: the call fails with the message
    [unrecognized config adapter '<name>'], and no adapter is called. *)
Theorem C4_unrecognized_adapter (contentType ct : string)
    (body : slice Byte.byte) :
  contentType <> "" ->
  ParseMediaType contentType = (ct, None) ->
  Strings.HasSuffix ct "/json" = false ->
  0 <= Strings.Index ct "/" ->
  configAdapters !! adapterNameOf ct = None ->
  exists err,
    adaptByContentType ParseMediaType configAdapters
      contentType body
    = ([], (None, None, Some err)) /\
    Error err = "unrecognized config adapter '" +:+ adapterNameOf ct +:+ "'".
Proof.
  intros Hne Hp Hj Hi Hreg. unfold adaptByContentType.
  nonempty Hne. rewrite Hp, Hj.
  destruct (Z.ltb_spec (Strings.Index ct "/") 0) as [? | _]; [lia|].
  unfold GetAdapter. fold (adapterNameOf ct). rewrite Hreg.
  eexists. split; reflexivity.
Qed.

(** C9. Whenever the dispatcher returns an error, the output bytes and the
    warning list it returns are both nil. *)
Theorem C9_error_has_no_result (contentType : string)
    (body : slice Byte.byte) (err : error) :
  snd (value (adaptByContentType ParseMediaType configAdapters
    contentType body))
  = Some err ->
  value (adaptByContentType ParseMediaType configAdapters
    contentType body)
  = (None, None, Some err).
Proof.
  unfold adaptByContentType.
  destruct (String.eqb contentType ""); [discriminate|].
  destruct (ParseMediaType contentType) as [ct [perr|]].
  { cbn. intros [= <-]. reflexivity. }
  destruct (Strings.HasSuffix ct "/json"); [discriminate|].
  destruct (Strings.Index ct "/" <? 0).
  { cbn. intros [= <-]. reflexivity. }
  destruct (GetAdapter _ _) as [cfgAdapter|].
  2:{ cbn. intros [= <-]. reflexivity. }
  unfold callAdapt. cbn.
  destruct (Adapt cfgAdapter body None) as [[result warnings] [aerr|]]; cbn.
  - intros [= <-]. reflexivity.
  - discriminate.
Qed.

(** C2 (amended). A content type that parses to a media type with no
    slash: the call fails with the message [malformed Content-Type], on an
    error value that carries no HTTP status. Of all the errors the
    dispatcher returns, the one for a MIME parse failure carries status 400
    and every other one (malformed content type, adapter not registered,
    adapter failure) is a plain error that carries no status. *)
Theorem C2_malformed_content_type (contentType ct : string)
    (body : slice Byte.byte) :
  contentType <> "" ->
  ParseMediaType contentType = (ct, None) ->
  Strings.Index ct "/" < 0 ->
  (exists err,
     adaptByContentType ParseMediaType configAdapters
       contentType body
     = ([], (None, None, Some err)) /\
     Error err = "malformed Content-Type" /\
     HTTPStatusOf err = None) /\
  (forall contentType' body' err',
     snd (value (adaptByContentType ParseMediaType configAdapters
       contentType' body'))
     = Some err' ->
     (HTTPStatusOf err' = Some StatusBadRequest <->
      snd (ParseMediaType contentType') <> None) /\
     (HTTPStatusOf err' = None <->
      snd (ParseMediaType contentType') = None) /\
     (snd (ParseMediaType contentType') = None ->
      exists msg, err' = errorString msg)).
Proof.
  intros Hne Hp Hi. split.
  - unfold adaptByContentType. nonempty Hne.
    rewrite Hp, (noslash_not_json _ Hi).
    destruct (Z.ltb_spec (Strings.Index ct "/") 0) as [_ | ?]; [|lia].
    eexists. repeat split.
  - clear. intros contentType body err. unfold adaptByContentType.
    destruct (String.eqb contentType ""); [discriminate|].
    destruct (ParseMediaType contentType) as [ct [perr|]]; cbn.
    { intros [= <-]. cbn. repeat split; try discriminate; congruence. }
    assert (Hplain : forall msg,
               (HTTPStatusOf (errorString msg) = Some StatusBadRequest <->
                @None error <> None) /\
               (HTTPStatusOf (errorString msg) = None <->
                @None error = None) /\
               (@None error = None ->
                exists msg', errorString msg = errorString msg')).
    { intros msg. cbn. repeat split; try discriminate; try congruence.
      eauto. }
    destruct (Strings.HasSuffix ct "/json"); [discriminate|].
    destruct (Strings.Index ct "/" <? 0).
    { cbn. intros [= <-]. apply Hplain. }
    destruct (GetAdapter _ _) as [cfgAdapter|].
    2:{ cbn. intros [= <-]. apply Hplain. }
    unfold callAdapt. cbn.
    destruct (Adapt cfgAdapter body None) as [[result warnings] [aerr|]];
      cbn; [|discriminate].
    intros [= <-]. apply Hplain.
Qed.

End Dispatcher.

(** ** The handler *)

Section Handler.

Context {any : Type}.
Variable ParseMediaType : string -> string * option error.
Variable configAdapters : gmap string (Adapter any).
Variable json_Marshal : slice Warning -> slice Byte.byte * option error.


(** A POST request whose body is read to the end and which declares a
    content type: what the handler does, in terms of the dispatcher. *)
Lemma handleAdapt_dispatch (r : Request) (t : list event)
    (result : slice Byte.byte) (warnings : slice Warning)
    (err : option error) :
  Method r = MethodPost ->
  readErr (Body r) = None ->
  Header_Get (Header r) "Content-Type" <> "" ->
  adaptByContentType ParseMediaType configAdapters
    (Header_Get (Header r) "Content-Type") (Some (data (Body r)))
  = (t, (result, warnings, err)) ->
  handleAdapt ParseMediaType configAdapters json_Marshal r
  = match err with
    | Some e =>
        ([EvPoolGet; EvBufReset; EvCopy (data (Body r))] ++ t
           ++ [EvPoolPut],
         Some (APIError StatusBadRequest (Some e) ""))
    | None =>
        ([EvPoolGet; EvBufReset; EvCopy (data (Body r))] ++ t
           ++ marshalEvents json_Marshal warnings
           ++ [EvHeaderAdd "Content-Type" "application/json";
               EvWrite result; EvPoolPut],
         None)
    end.
Proof.
  intros Hm Hr Hh Ha. unfold handleAdapt. rewrite Hm, Hr.
  change (String.eqb MethodPost MethodPost) with true.
  destruct (String.eqb_spec (Header_Get (Header r) "Content-Type") "")
    as [E|_]; [destruct (Hh E)|].
  rewrite Ha. unfold marshalEvents.
  destruct err as [e|].
  - cbn. rewrite app_nil_r. reflexivity.
  - cbn -[Nat.ltb len].
    destruct (json_Marshal warnings) as [out [merr|]];
      destruct (0 <? len warnings)%nat; cbn;
      repeat (rewrite <- ?app_assoc; cbn); reflexivity.
Qed.

(** C7. A request whose method is not POST fails with the error
    [method not allowed] carrying status 405, and nothing else happens:
    no buffer taken, no body read, no dispatch, no response write. *)
Theorem C7_method_not_allowed (r : Request) :
  Method r <> MethodPost ->
  handleAdapt ParseMediaType configAdapters json_Marshal r
  = ([], Some (APIError StatusMethodNotAllowed
                 (Some (errorString "method not allowed")) "")).
Proof.
  intros Hm. unfold handleAdapt.
  destruct (String.eqb_spec (Method r) MethodPost) as [E|_];
    [destruct (Hm E) | reflexivity].
Qed.


(** C8. A POST request on which the dispatcher succeeds with a non-empty
    warning list, while [json.Marshal] fails on that list: the failure is
    logged and nothing more; the handler still adds the JSON content type,
    writes the dispatcher's result, and returns no error. *)
Theorem C8_marshal_failure_is_logged_only (r : Request) (t : list event)
    (result : slice Byte.byte) (warnings : slice Warning) (merr : error) :
  let contentType := Header_Get (Header r) "Content-Type" in
  Method r = MethodPost ->
  readErr (Body r) = None ->
  contentType <> "" ->
  adaptByContentType ParseMediaType configAdapters
    contentType (Some (data (Body r)))
  = (t, (result, warnings, None)) ->
  (0 < len warnings)%nat ->
  snd (json_Marshal warnings) = Some merr ->
  handleAdapt ParseMediaType configAdapters json_Marshal r
  = ([EvPoolGet; EvBufReset; EvCopy (data (Body r))] ++ t
       ++ [EvLogError "admin.api.load" (Error merr);
           EvHeaderAdd "Content-Type" "application/json";
           EvWrite result; EvPoolPut],
     None).
Proof.
  intros contentType Hm Hr Hne Ha Hw Hj.
  rewrite (handleAdapt_dispatch r _ _ _ _ Hm Hr Hne Ha).
  unfold marshalEvents. rewrite Hj.
  destruct (Nat.ltb_spec 0 (len warnings)) as [_|?]; [reflexivity | lia].
Qed.

End Handler.

(** ** Lower-casing of the media type *)

(** *** One byte *)

Local Ltac by_byte c := destruct c as [[] [] [] [] [] [] [] []]; reflexivity.

Lemma isUpper_lowerByte (c : ascii) :
  Strings.isUpper (Strings.lowerByte c) = false.
Proof. by_byte c. Qed.

Lemma isASCIIbyte_lowerByte (c : ascii) :
  Strings.isASCIIbyte (Strings.lowerByte c) = Strings.isASCIIbyte c.
Proof. by_byte c. Qed.

Lemma isAsciiSpace_lowerByte (c : ascii) :
  Strings.isAsciiSpace (Strings.lowerByte c) = Strings.isAsciiSpace c.
Proof. by_byte c. Qed.

Lemma slash_lowerByte (c : ascii) :
  Ascii.eqb "/" (Strings.lowerByte c) = Ascii.eqb "/" c.
Proof. by_byte c. Qed.

Lemma semicolon_lowerByte (c : ascii) :
  Ascii.eqb ";" (Strings.lowerByte c) = Ascii.eqb ";" c.
Proof. by_byte c. Qed.

Lemma lowerByte_fixed (c : ascii) :
  Strings.isUpper c = false -> Strings.lowerByte c = c.
Proof. unfold Strings.lowerByte. intros ->. reflexivity. Qed.

(** *** Strings *)

#[local] Abbreviation lower := (Strings.map Strings.lowerByte).

Lemma lower_fixed (s : string) :
  Strings.existsb Strings.isUpper s = false -> lower s = s.
Proof.
  induction s as [|c s IH]; cbn; [reflexivity|].
  intros H. apply orb_false_elim in H as [Hc Hs].
  rewrite (lowerByte_fixed c Hc), (IH Hs). reflexivity.
Qed.

Lemma lower_no_upper (s : string) :
  Strings.existsb Strings.isUpper (lower s) = false.
Proof.
  induction s as [|c s IH]; cbn; [reflexivity|].
  rewrite isUpper_lowerByte, IH. reflexivity.
Qed.

Lemma lower_idem (s : string) : lower (lower s) = lower s.
Proof. apply lower_fixed, lower_no_upper. Qed.

Lemma isASCII_lower (s : string) :
  Strings.isASCII (lower s) = Strings.isASCII s.
Proof.
  unfold Strings.isASCII.
  induction s as [|c s IH]; cbn; [reflexivity|].
  rewrite isASCIIbyte_lowerByte, IH. reflexivity.
Qed.

Lemma drop_lower (n : nat) (s : string) :
  Strings.drop n (lower s) = lower (Strings.drop n s).
Proof.
  revert s. induction n as [|n IH]; intros [|c s]; cbn; try reflexivity.
  apply IH.
Qed.

Lemma trimLeft_lower (s : string) :
  Strings.trimLeft (lower s) = lower (Strings.trimLeft s).
Proof.
  induction s as [|c s IH]; cbn; [reflexivity|].
  rewrite isAsciiSpace_lowerByte.
  destruct (Strings.isAsciiSpace c); [exact IH | reflexivity].
Qed.

Lemma trimRight_lower (s : string) :
  Strings.trimRight (lower s) = lower (Strings.trimRight s).
Proof.
  induction s as [|c s IH]; cbn; [reflexivity|].
  rewrite IH, isAsciiSpace_lowerByte.
  destruct (Strings.trimRight s); cbn; [|reflexivity].
  destruct (Strings.isAsciiSpace c); reflexivity.
Qed.

Lemma index_slash_lower (s : string) :
  Strings.index_from (lower s) "/" = Strings.index_from s "/".
Proof.
  induction s as [|c s IH]; [reflexivity|].
  cbn [Strings.map]. rewrite !index_from_byte, slash_lowerByte, IH.
  reflexivity.
Qed.

(** The adapter name of a lower-cased media type is the lower-cased adapter
    name. *)
Lemma adapterNameOf_lower (s : string) :
  adapterNameOf (lower s) = lower (adapterNameOf s).
Proof.
  unfold adapterNameOf, Strings.Index, Strings.from.
  rewrite index_slash_lower, drop_lower. reflexivity.
Qed.

(** On an ASCII string [ToLower] maps [lowerByte] over the bytes, and
    [TrimSpace] trims ASCII white space, whatever the Unicode paths do. *)
Lemma ToLower_ascii (uL : string -> string) (s : string) :
  Strings.isASCII s = true -> Strings.ToLower uL s = lower s.
Proof.
  unfold Strings.ToLower. intros ->.
  destruct (Strings.existsb Strings.isUpper s) eqn:E; [reflexivity|].
  symmetry. apply lower_fixed, E.
Qed.

Lemma TrimSpace_ascii (uT : string -> string) (s : string) :
  Strings.isASCII s = true ->
  Strings.TrimSpace uT s = Strings.trimRight (Strings.trimLeft s).
Proof. unfold Strings.TrimSpace. intros ->. reflexivity. Qed.

(** *** The split at the first semicolon *)

Lemma baseOf_cons (c : ascii) (s : string) :
  baseOf (String c s) = if Ascii.eqb ";" c then "" else String c (baseOf s).
Proof.
  unfold baseOf, Strings.Cut, Strings.Index. rewrite index_from_byte.
  destruct (Ascii.eqb ";" c); [reflexivity|].
  destruct (Strings.index_from s ";") as [i|]; cbn -[Z.of_nat Z.to_nat];
    [|reflexivity].
  unfold Strings.upto. rewrite !Nat2Z.id.
  destruct (Z.leb_spec 0 (Z.of_nat (S i))); [|lia].
  destruct (Z.leb_spec 0 (Z.of_nat i)); [|lia].
  reflexivity.
Qed.

Lemma ParseMediaType_baseOf (uL uT : string -> string)
    (mp : string -> mime.paramsOutcome) (v : string) :
  mime.ParseMediaType uL uT mp v
  = let mediatype := Strings.TrimSpace uT (Strings.ToLower uL (baseOf v)) in
    match mime.checkMediaTypeDisposition mediatype with
    | Some err => ("", Some err)
    | None =>
        let rest := Strings.drop (String.length (baseOf v)) v in
        if (0 <? String.length rest)%nat
        then match mp rest with
             | mime.ParamsOk => (mediatype, None)
             | mime.ParamsInvalid =>
                 (mediatype, Some mime.ErrInvalidMediaParameter)
             | mime.ParamsDuplicate =>
                 ("", Some (errorString "mime: duplicate parameter name"))
             end
        else (mediatype, None)
    end.
Proof.
  unfold mime.ParseMediaType, baseOf, Strings.from.
  destruct (Strings.Cut v ";") as [[base after] found].
  rewrite Nat2Z.id. reflexivity.
Qed.

Lemma lowerMediaType_eq (v : string) :
  lowerMediaType v
  = lower (baseOf v) +:+ Strings.drop (String.length (baseOf v)) v.
Proof.
  unfold lowerMediaType, baseOf, Strings.from.
  destruct (Strings.Cut v ";") as [[base after] found].
  rewrite Nat2Z.id. reflexivity.
Qed.

Lemma lowerMediaType_cons (c : ascii) (s : string) :
  lowerMediaType (String c s)
  = if Ascii.eqb ";" c then String c s
    else String (Strings.lowerByte c) (lowerMediaType s).
Proof.
  rewrite !lowerMediaType_eq, baseOf_cons.
  destruct (Ascii.eqb ";" c); reflexivity.
Qed.

Lemma baseOf_lowerMediaType (v : string) :
  baseOf (lowerMediaType v) = lower (baseOf v).
Proof.
  induction v as [|c s IH]; [reflexivity|].
  rewrite lowerMediaType_cons, (baseOf_cons c s).
  destruct (Ascii.eqb ";" c) eqn:E.
  - rewrite baseOf_cons, E. reflexivity.
  - rewrite baseOf_cons, semicolon_lowerByte, E, IH. reflexivity.
Qed.

Lemma rest_lowerMediaType (v : string) :
  Strings.drop (String.length (baseOf (lowerMediaType v))) (lowerMediaType v)
  = Strings.drop (String.length (baseOf v)) v.
Proof.
  induction v as [|c s IH]; [reflexivity|].
  rewrite lowerMediaType_cons, (baseOf_cons c s).
  destruct (Ascii.eqb ";" c) eqn:E.
  - rewrite baseOf_cons, E. reflexivity.
  - rewrite baseOf_cons, semicolon_lowerByte, E. cbn. exact IH.
Qed.

Lemma lowerMediaType_empty (v : string) :
  String.eqb (lowerMediaType v) "" = String.eqb v "".
Proof.
  destruct v as [|c s]; [reflexivity|].
  rewrite lowerMediaType_cons. destruct (Ascii.eqb ";" c); reflexivity.
Qed.

(** Parsing does not see the case of the media-type portion. *)
Lemma ParseMediaType_lowerMediaType (uL uT : string -> string)
    (mp : string -> mime.paramsOutcome) (v : string) :
  Strings.isASCII (baseOf v) = true ->
  mime.ParseMediaType uL uT mp (lowerMediaType v)
  = mime.ParseMediaType uL uT mp v.
Proof.
  intros Ha. rewrite !ParseMediaType_baseOf.
  rewrite rest_lowerMediaType, baseOf_lowerMediaType.
  rewrite (ToLower_ascii uL (baseOf v) Ha).
  rewrite (ToLower_ascii uL (lower (baseOf v))), lower_idem; [reflexivity|].
  rewrite isASCII_lower. exact Ha.
Qed.

(** A parsed media type is the trimmed base, lower-cased. *)
Lemma ParseMediaType_lower (uL uT : string -> string)
    (mp : string -> mime.paramsOutcome) (v ct : string) :
  Strings.isASCII (baseOf v) = true ->
  mime.ParseMediaType uL uT mp v = (ct, None) ->
  ct = lower (Strings.trimRight (Strings.trimLeft (baseOf v))).
Proof.
  intros Ha. rewrite ParseMediaType_baseOf.
  rewrite (ToLower_ascii uL _ Ha), TrimSpace_ascii
    by (rewrite isASCII_lower; exact Ha).
  rewrite trimLeft_lower, trimRight_lower. cbv zeta.
  destruct (mime.checkMediaTypeDisposition _); [discriminate|].
  destruct (0 <? _)%nat; [|congruence].
  destruct (mp _); congruence.
Qed.

(** ** The claims at concrete inputs *)

(** C1 as first stated fails: [application/vnd.api+json] parses, its subtype
    ends in [json], and yet the body is not passed through: the dispatcher
    looks for an adapter named [vnd.api+json], fails when there is none and
    hands the body to it when there is one. *)
Lemma C1_counterexample :
  let contentType := "application/vnd.api+json" in
  let body := Some Sample.yaml_a1 in
  Sample.ParseMediaType contentType = (contentType, None) /\
  Strings.HasSuffix (adapterNameOf contentType) "json" = true /\
  adaptByContentType Sample.ParseMediaType Sample.configAdapters
    contentType body
  = ([], (None, None,
          Some (errorString "unrecognized config adapter 'vnd.api+json'"))) /\
  adaptByContentType Sample.ParseMediaType
    (<["vnd.api+json" := Sample.yamlAdapter]> Sample.configAdapters)
    contentType body
  = ([EvAdapt "vnd.api+json" body],
     (Some Sample.json_a1, Some [Sample.warn], None)).
Proof. repeat split; vm_compute; reflexivity. Qed.

Lemma C1_witness :
  adaptByContentType Sample.ParseMediaType Sample.configAdapters
    "application/json; charset=utf-8" (Some Sample.json_a1)
  = ([], (Some Sample.json_a1, None, None)).
Proof.
  apply (C1_json_passthrough Sample.ParseMediaType Sample.configAdapters
           "application/json; charset=utf-8" "application/json");
    vm_compute; reflexivity.
Defined.

(** C2 as first stated fails in its comparison with the other error paths:
    the error for an adapter that is not registered carries no HTTP status
    either. *)
Lemma C2_counterexample :
  exists err,
    value (adaptByContentType Sample.ParseMediaType Sample.configAdapters
             "application/toml" (Some []))
    = (None, None, Some err) /\
    Error err = "unrecognized config adapter 'toml'" /\
    HTTPStatusOf err = None.
Proof. eexists. repeat split. Qed.

Lemma C2_witness :
  (exists err,
     adaptByContentType Sample.ParseMediaType Sample.configAdapters
       "json" (Some Sample.json_a1)
     = ([], (None, None, Some err)) /\
     Error err = "malformed Content-Type" /\
     HTTPStatusOf err = None) /\
  (HTTPStatusOf (errorString "unrecognized config adapter 'toml'") = None <->
   snd (Sample.ParseMediaType "application/toml") = None).
Proof.
  destruct (C2_malformed_content_type Sample.ParseMediaType
              Sample.configAdapters "json" "json" (Some Sample.json_a1))
    as [H1 H2].
  - discriminate.
  - vm_compute. reflexivity.
  - vm_compute. reflexivity.
  - split; [exact H1|].
    destruct (H2 "application/toml" (Some [])
                (errorString "unrecognized config adapter 'toml'") eq_refl)
      as (_ & H & _).
    exact H.
Defined.

Lemma C3_witness :
  adaptByContentType Sample.ParseMediaType Sample.configAdapters
    "application/yaml" (Some Sample.yaml_a1)
  = ([EvAdapt "yaml" (Some Sample.yaml_a1)],
     (Some Sample.json_a1, Some [Sample.warn], None)).
Proof.
  apply (C3_adapter_output Sample.ParseMediaType Sample.configAdapters
           "application/yaml" "application/yaml" (Some Sample.yaml_a1)
           (Some Sample.json_a1) (Some [Sample.warn]) Sample.yamlAdapter).
  - discriminate.
  - vm_compute. reflexivity.
  - vm_compute. reflexivity.
  - vm_compute. discriminate.
  - vm_compute. reflexivity.
  - reflexivity.
Defined.

Lemma C4_witness :
  exists err,
    adaptByContentType Sample.ParseMediaType Sample.configAdapters
      "application/toml" (Some [])
    = ([], (None, None, Some err)) /\
    Error err = "unrecognized config adapter 'toml'".
Proof.
  apply (C4_unrecognized_adapter Sample.ParseMediaType Sample.configAdapters
           "application/toml" "application/toml" (Some [])).
  - discriminate.
  - vm_compute. reflexivity.
  - vm_compute. reflexivity.
  - vm_compute. discriminate.
  - vm_compute. reflexivity.
Defined.


Lemma C7_witness :
  handleAdapt Sample.ParseMediaType Sample.configAdapters Sample.marshalOk
    (Sample.request "GET" "application/yaml" Sample.yaml_a1)
  = ([], Some (APIError 405 (Some (errorString "method not allowed")) "")).
Proof.
  apply (C7_method_not_allowed Sample.ParseMediaType Sample.configAdapters
           Sample.marshalOk
           (Sample.request "GET" "application/yaml" Sample.yaml_a1)).
  discriminate.
Defined.

Lemma C8_witness :
  handleAdapt Sample.ParseMediaType Sample.configAdapters Sample.marshalFail
    (Sample.request "POST" "application/yaml" Sample.yaml_a1)
  = ([EvPoolGet; EvBufReset; EvCopy Sample.yaml_a1;
      EvAdapt "yaml" (Some Sample.yaml_a1);
      EvLogError "admin.api.load" "json: unsupported value";
      EvHeaderAdd "Content-Type" "application/json";
      EvWrite (Some Sample.json_a1); EvPoolPut], None).
Proof.
  apply (C8_marshal_failure_is_logged_only Sample.ParseMediaType
           Sample.configAdapters Sample.marshalFail
           (Sample.request "POST" "application/yaml" Sample.yaml_a1)
           [EvAdapt "yaml" (Some Sample.yaml_a1)]
           (Some Sample.json_a1) (Some [Sample.warn])
           (errorString "json: unsupported value")).
  - reflexivity.
  - reflexivity.
  - vm_compute. discriminate.
  - vm_compute. reflexivity.
  - vm_compute. lia.
  - reflexivity.
Defined.

Lemma C9_witness :
  value (adaptByContentType Sample.ParseMediaType Sample.configAdapters
           "application/toml" (Some Sample.yaml_a1))
  = (None, None,
     Some (errorString "unrecognized config adapter 'toml'")).
Proof.
  apply (C9_error_has_no_result Sample.ParseMediaType Sample.configAdapters
           "application/toml" (Some Sample.yaml_a1)).
  vm_compute. reflexivity.
Defined.

(** * Further properties *)

(** ** Strings: the first slash *)

Lemma length_app (s t : string) :
  String.length (s +:+ t) = (String.length s + String.length t)%nat.
Proof.
  induction s as [|c s IH]; [reflexivity|].
  change (S (String.length (s +:+ t))
          = S (String.length s + String.length t)).
  f_equal. exact IH.
Qed.

Lemma drop_app_length (s t : string) :
  Strings.drop (String.length s) (s +:+ t) = t.
Proof.
  induction s as [|c s IH]; [destruct t; reflexivity | exact IH].
Qed.

Lemma HasSuffix_app (s suffix : string) :
  Strings.HasSuffix (s +:+ suffix) suffix = true.
Proof.
  unfold Strings.HasSuffix. rewrite length_app.
  replace (String.length s + String.length suffix - String.length suffix)%nat
    with (String.length s) by lia.
  rewrite drop_app_length, String.eqb_refl.
  destruct (Nat.leb_spec (String.length suffix)
              (String.length s + String.length suffix)); [reflexivity | lia].
Qed.

(** Where [index_from] finds the separator byte, the string splits into a
    part without it, the byte, and the rest. *)
Lemma index_from_split (a : ascii) (s : string) (i : nat) :
  Strings.index_from s (String a "") = Some i ->
  s = Strings.take i s +:+ String a (Strings.drop (S i) s) /\
  Strings.index_from (Strings.take i s) (String a "") = None.
Proof.
  revert i. induction s as [|c s IH]; intros i; [discriminate|].
  rewrite index_from_byte. destruct (Ascii.eqb_spec a c) as [<-|Hne].
  - intros [= <-]. split; reflexivity.
  - destruct (Strings.index_from s (String a "")) as [j|] eqn:E;
      [|discriminate].
    intros Hi. cbn in Hi. injection Hi as <-.
    destruct (IH j eq_refl) as [Hs Hn]. split.
    + change (String c s
              = String c (Strings.take j s
                            +:+ String a (Strings.drop (S j) s))).
      f_equal. exact Hs.
    + change (Strings.take (S j) (String c s))
        with (String c (Strings.take j s)).
      rewrite index_from_byte, Hn.
      destruct (Ascii.eqb_spec a c); [contradiction | reflexivity].
Qed.

Lemma adapterNameOf_drop (ct : string) (i : nat) :
  Strings.index_from ct "/" = Some i ->
  adapterNameOf ct = Strings.drop (S i) ct.
Proof.
  intros H. unfold adapterNameOf, Strings.Index, Strings.from. rewrite H.
  replace (Z.to_nat (Z.of_nat i + 1)) with (S i) by lia. reflexivity.
Qed.

Lemma Index_found (ct : string) :
  0 <= Strings.Index ct "/" ->
  exists i, Strings.index_from ct "/" = Some i.
Proof.
  unfold Strings.Index.
  destruct (Strings.index_from ct "/") as [i|]; [eauto | lia].
Qed.

(** A media type with a slash is the text before the first slash, the
    slash, and the adapter name. *)
Lemma adapterNameOf_split (ct : string) :
  0 <= Strings.Index ct "/" ->
  exists typ,
    ct = typ +:+ "/" +:+ adapterNameOf ct /\ Strings.Index typ "/" < 0.
Proof.
  intros H. destruct (Index_found ct H) as [i Hi].
  destruct (index_from_split "/" ct i Hi) as [Hs Hn].
  exists (Strings.take i ct). rewrite (adapterNameOf_drop ct i Hi). split.
  - exact Hs.
  - unfold Strings.Index. rewrite Hn. lia.
Qed.

(** The adapter name [json] only comes from a media type ending in
    [/json]. *)
Lemma adapterNameOf_json (ct : string) :
  0 <= Strings.Index ct "/" ->
  adapterNameOf ct = "json" ->
  Strings.HasSuffix ct "/json" = true.
Proof.
  intros H Hj. destruct (adapterNameOf_split ct H) as [typ [Hs _]].
  rewrite Hs, Hj. apply (HasSuffix_app typ "/json").
Qed.

(** ** The dispatcher, continued *)

Section DispatcherCases.

Context {any : Type}.
Variable ParseMediaType : string -> string * option error.

(** The dispatcher as one equation over its six ways out. *)
Lemma adaptByContentType_eq (configAdapters : gmap string (Adapter any))
    (contentType : string) (body : slice Byte.byte) :
  adaptByContentType ParseMediaType configAdapters contentType body
  = if String.eqb contentType "" then ([], (body, None, None))
    else
      match ParseMediaType contentType with
      | (_, Some perr) =>
          ([], (None, None,
                Some (APIError StatusBadRequest
                        (Some (errorString
                                 ("invalid Content-Type: " +:+ Error perr)))
                        "")))
      | (ct, None) =>
          if Strings.HasSuffix ct "/json" then ([], (body, None, None))
          else if Strings.Index ct "/" <? 0
          then ([], (None, None, Some (errorString "malformed Content-Type")))
          else
            match configAdapters !! adapterNameOf ct with
            | None =>
                ([], (None, None,
                      Some (errorString
                              ("unrecognized config adapter '"
                                 +:+ adapterNameOf ct +:+ "'"))))
            | Some cfgAdapter =>
                ([EvAdapt (adapterNameOf ct) body],
                 match Adapt cfgAdapter body None with
                 | (_, _, Some err) =>
                     (None, None,
                      Some (errorString
                              ("adapting config using " +:+ adapterNameOf ct
                                 +:+ " adapter: " +:+ Error err)))
                 | (result, warnings, None) => (result, warnings, None)
                 end)
            end
      end.
Proof.
  unfold adaptByContentType.
  destruct (String.eqb contentType ""); [reflexivity|].
  destruct (ParseMediaType contentType) as [ct [perr|]]; [reflexivity|].
  destruct (Strings.HasSuffix ct "/json"); [reflexivity|].
  destruct (Strings.Index ct "/" <? 0); [reflexivity|].
  unfold GetAdapter. fold (adapterNameOf ct).
  destruct (configAdapters !! adapterNameOf ct) as [cfgAdapter|];
    [|reflexivity].
  unfold callAdapt. cbn.
  destruct (Adapt cfgAdapter body None) as [[result warnings] [err|]];
    reflexivity.
Qed.

(** Two registries that agree on the name a content type selects give the
    same result on it. *)
Lemma adaptByContentType_ext (reg1 reg2 : gmap string (Adapter any))
    (contentType : string) (body : slice Byte.byte) :
  (forall ct,
     ParseMediaType contentType = (ct, None) ->
     Strings.HasSuffix ct "/json" = false ->
     0 <= Strings.Index ct "/" ->
     reg1 !! adapterNameOf ct = reg2 !! adapterNameOf ct) ->
  adaptByContentType ParseMediaType reg1 contentType body
  = adaptByContentType ParseMediaType reg2 contentType body.
Proof.
  intros H. rewrite !adaptByContentType_eq.
  destruct (String.eqb contentType ""); [reflexivity|].
  destruct (ParseMediaType contentType) as [ct [perr|]]; [reflexivity|].
  destruct (Strings.HasSuffix ct "/json") eqn:Hj; [reflexivity|].
  destruct (Z.ltb_spec (Strings.Index ct "/") 0) as [|Hi]; [reflexivity|].
  rewrite (H ct eq_refl Hj Hi). reflexivity.
Qed.

Variable configAdapters : gmap string (Adapter any).

(** The dispatcher performs no event, or one call of a registered adapter on
    the body it was given. *)
Lemma adaptByContentType_trace (contentType : string)
    (body : slice Byte.byte) :
  trace (adaptByContentType ParseMediaType configAdapters contentType body)
  = [] \/
  exists name,
    is_Some (configAdapters !! name) /\
    trace (adaptByContentType ParseMediaType configAdapters contentType body)
    = [EvAdapt name body].
Proof.
  rewrite adaptByContentType_eq.
  destruct (String.eqb contentType ""); [left; reflexivity|].
  destruct (ParseMediaType contentType) as [ct [perr|]]; [left; reflexivity|].
  destruct (Strings.HasSuffix ct "/json"); [left; reflexivity|].
  destruct (Strings.Index ct "/" <? 0); [left; reflexivity|].
  destruct (configAdapters !! adapterNameOf ct) as [cfgAdapter|] eqn:E;
    [|left; reflexivity].
  right. exists (adapterNameOf ct). rewrite E. split; [eauto | reflexivity].
Qed.

End DispatcherCases.

Section DispatcherMore.

Context {any : Type}.
Variable ParseMediaType : string -> string * option error.
Variable configAdapters : gmap string (Adapter any).

(** X1. A content type that MIME parsing rejects: the dispatcher fails
    with status 400 and the message [invalid Content-Type: <parse error>],
    without looking at the registry or the body. *)
Theorem X1_invalid_content_type (contentType ct : string) (perr : error)
    (body : slice Byte.byte) :
  contentType <> "" ->
  ParseMediaType contentType = (ct, Some perr) ->
  exists err,
    adaptByContentType ParseMediaType configAdapters contentType body
    = ([], (None, None, Some err)) /\
    HTTPStatusOf err = Some StatusBadRequest /\
    Error err = "invalid Content-Type: " +:+ Error perr.
Proof.
  intros Hne Hp. rewrite adaptByContentType_eq, Hp.
  destruct (String.eqb_spec contentType "") as [E|_]; [destruct (Hne E)|].
  eexists. repeat split.
Qed.

(** X2. Every call of the dispatcher ends in one of three ways: the body
    passed through with nothing done; the output and warnings of one
    successful call of a registered adapter on the body; or an error with
    nil output and nil warnings, after at most one adapter call. *)
Theorem X2_three_outcomes (contentType : string) (body : slice Byte.byte) :
  let out :=
    adaptByContentType ParseMediaType configAdapters contentType body in
  out = ([], (body, None, None)) \/
  (exists name cfgAdapter result warnings,
     configAdapters !! name = Some cfgAdapter /\
     Adapt cfgAdapter body None = (result, warnings, None) /\
     out = ([EvAdapt name body], (result, warnings, None))) \/
  (exists err,
     value out = (None, None, Some err) /\
     (trace out = [] \/
      exists name cfgAdapter cause,
        configAdapters !! name = Some cfgAdapter /\
        snd (Adapt cfgAdapter body None) = Some cause /\
        trace out = [EvAdapt name body])).
Proof.
  intros out. subst out. rewrite adaptByContentType_eq.
  destruct (String.eqb contentType ""); [left; reflexivity|].
  destruct (ParseMediaType contentType) as [ct [perr|]].
  { right; right. eexists. split; [reflexivity | left; reflexivity]. }
  destruct (Strings.HasSuffix ct "/json"); [left; reflexivity|].
  destruct (Strings.Index ct "/" <? 0).
  { right; right. eexists. split; [reflexivity | left; reflexivity]. }
  destruct (configAdapters !! adapterNameOf ct) as [cfgAdapter|] eqn:E.
  2:{ right; right. eexists. split; [reflexivity | left; reflexivity]. }
  destruct (Adapt cfgAdapter body None) as [[result warnings] [cause|]] eqn:R.
  - right; right. eexists. split; [reflexivity|]. right.
    exists (adapterNameOf ct), cfgAdapter, cause. rewrite R. auto.
  - right; left. exists (adapterNameOf ct), cfgAdapter, result, warnings.
    auto.
Qed.

(** X3. An adapter registered under the name [json] is never called, and
    binding or unbinding that name changes nothing: a media type that would
    select it ends in [/json] and is passed through before the lookup. *)
Theorem X3_json_adapter_unreachable (cfgAdapter : Adapter any)
    (contentType : string) (body b : slice Byte.byte) :
  (EvAdapt "json" b
     ∉ trace (adaptByContentType ParseMediaType configAdapters
                contentType body)) /\
  adaptByContentType ParseMediaType (<["json" := cfgAdapter]> configAdapters)
    contentType body
  = adaptByContentType ParseMediaType configAdapters contentType body /\
  adaptByContentType ParseMediaType (delete "json" configAdapters)
    contentType body
  = adaptByContentType ParseMediaType configAdapters contentType body.
Proof.
  assert (Hname : forall ct,
             Strings.HasSuffix ct "/json" = false ->
             0 <= Strings.Index ct "/" -> adapterNameOf ct <> "json").
  { intros ct Hj Hi E. rewrite (adapterNameOf_json ct Hi E) in Hj.
    discriminate. }
  split; [|split].
  - rewrite adaptByContentType_eq.
    destruct (String.eqb contentType ""); [apply not_elem_of_nil|].
    destruct (ParseMediaType contentType) as [ct [perr|]];
      [apply not_elem_of_nil|].
    destruct (Strings.HasSuffix ct "/json") eqn:Hj; [apply not_elem_of_nil|].
    destruct (Z.ltb_spec (Strings.Index ct "/") 0) as [|Hi];
      [apply not_elem_of_nil|].
    destruct (configAdapters !! adapterNameOf ct); [|apply not_elem_of_nil].
    cbn. rewrite list_elem_of_singleton. intros [= E _].
    exact (Hname ct Hj Hi (eq_sym E)).
  - apply adaptByContentType_ext. intros ct _ Hj Hi.
    apply lookup_insert_ne. intros E. exact (Hname ct Hj Hi (eq_sym E)).
  - apply adaptByContentType_ext. intros ct _ Hj Hi.
    apply lookup_delete_ne. intros E. exact (Hname ct Hj Hi (eq_sym E)).
Qed.


(** X5. Whenever the dispatcher calls an adapter, it hands it the body it
    was given, the adapter is the one the registry binds to the name, and
    the name is what follows the first slash of the parsed media type. *)
Theorem X5_adapter_call (contentType : string) (body b : slice Byte.byte)
    (name : string) :
  EvAdapt name b
    ∈ trace (adaptByContentType ParseMediaType configAdapters
               contentType body) ->
  b = body /\
  is_Some (configAdapters !! name) /\
  exists typ,
    fst (ParseMediaType contentType) = typ +:+ "/" +:+ name /\
    Strings.Index typ "/" < 0.
Proof.
  rewrite adaptByContentType_eq.
  destruct (String.eqb contentType ""); [intros Hin; inversion Hin|].
  destruct (ParseMediaType contentType) as [ct [perr|]];
    [intros Hin; inversion Hin|].
  destruct (Strings.HasSuffix ct "/json"); [intros Hin; inversion Hin|].
  destruct (Z.ltb_spec (Strings.Index ct "/") 0) as [|Hi];
    [intros Hin; inversion Hin|].
  destruct (configAdapters !! adapterNameOf ct) as [cfgAdapter|] eqn:E;
    [|intros Hin; inversion Hin].
  cbn. rewrite list_elem_of_singleton. intros [= -> ->].
  split; [reflexivity|]. split; [rewrite E; eauto|].
  apply adapterNameOf_split, Hi.
Qed.

End DispatcherMore.

(** ** The handler, continued *)

Lemma marshalEvents_cases
    (json_Marshal : slice Warning -> slice Byte.byte * option error)
    (warnings : slice Warning) :
  marshalEvents json_Marshal warnings = [] \/
  exists msg, marshalEvents json_Marshal warnings
              = [EvLogError "admin.api.load" msg].
Proof.
  unfold marshalEvents. destruct (0 <? len warnings)%nat; [|left; reflexivity].
  destruct (snd (json_Marshal warnings)); [right; eauto | left; reflexivity].
Qed.

Section HandlerCases.

Context {any : Type}.
Variable ParseMediaType : string -> string * option error.
Variable configAdapters : gmap string (Adapter any).

(** The handler as one equation over its five ways out. *)
Lemma handleAdapt_eq
    (json_Marshal : slice Warning -> slice Byte.byte * option error)
    (r : Request) :
  handleAdapt ParseMediaType configAdapters json_Marshal r
  = if negb (String.eqb (Method r) MethodPost)
    then ([], Some (APIError StatusMethodNotAllowed
                      (Some (errorString "method not allowed")) ""))
    else
      match readErr (Body r) with
      | Some err =>
          ([EvPoolGet; EvBufReset; EvCopy (data (Body r)); EvPoolPut],
           Some (APIError StatusBadRequest
                   (Some (errorString
                            ("reading request body: " +:+ Error err))) ""))
      | None =>
          if String.eqb (Header_Get (Header r) "Content-Type") ""
          then ([EvPoolGet; EvBufReset; EvCopy (data (Body r));
                 EvHeaderAdd "Content-Type" "application/json";
                 EvWrite (Some (data (Body r))); EvPoolPut], None)
          else
            let out :=
              adaptByContentType ParseMediaType configAdapters
                (Header_Get (Header r) "Content-Type")
                (Some (data (Body r))) in
            match value out with
            | (_, _, Some err) =>
                ([EvPoolGet; EvBufReset; EvCopy (data (Body r))]
                   ++ trace out ++ [EvPoolPut],
                 Some (APIError StatusBadRequest (Some err) ""))
            | (result, warnings, None) =>
                ([EvPoolGet; EvBufReset; EvCopy (data (Body r))]
                   ++ trace out ++ marshalEvents json_Marshal warnings
                   ++ [EvHeaderAdd "Content-Type" "application/json";
                       EvWrite result; EvPoolPut],
                 None)
            end
      end.
Proof.
  destruct (String.eqb_spec (Method r) MethodPost) as [Hm|Hm].
  2:{ unfold handleAdapt.
      destruct (String.eqb_spec (Method r) MethodPost) as [E|_];
        [destruct (Hm E) | reflexivity]. }
  destruct (readErr (Body r)) as [err|] eqn:Hr.
  { unfold handleAdapt. rewrite Hm, Hr. reflexivity. }
  destruct (String.eqb_spec (Header_Get (Header r) "Content-Type") "")
    as [Hh|Hh].
  { unfold handleAdapt. rewrite Hm, Hr, Hh. reflexivity. }
  cbv zeta.
  destruct (adaptByContentType ParseMediaType configAdapters
              (Header_Get (Header r) "Content-Type") (Some (data (Body r))))
    as [t [[result warnings] err]] eqn:Ha.
  rewrite (handleAdapt_dispatch ParseMediaType configAdapters json_Marshal
             r t result warnings err Hm Hr Hh Ha).
  destruct err; reflexivity.
Qed.

End HandlerCases.

Lemma forallb_app_true {A : Type} (p : A -> bool) (l1 l2 : list A) :
  List.forallb p l1 = true -> List.forallb p l2 = true ->
  List.forallb p (l1 ++ l2) = true.
Proof. intros H1 H2. rewrite List.forallb_app, H1, H2. reflexivity. Qed.

Section HandlerMore.

Context {any : Type}.
Variable ParseMediaType : string -> string * option error.
Variable configAdapters : gmap string (Adapter any).
Variable json_Marshal : slice Warning -> slice Byte.byte * option error.

(** The events of the dispatcher and of the warning serialization are
    neither pool events nor response events. *)
Lemma inner_events (p : event -> bool) (contentType : string)
    (body : slice Byte.byte) (warnings : slice Warning) :
  (forall name b, p (EvAdapt name b) = true) ->
  (forall logger msg, p (EvLogError logger msg) = true) ->
  List.forallb p
    (trace (adaptByContentType ParseMediaType configAdapters
              contentType body)) = true /\
  List.forallb p (marshalEvents json_Marshal warnings) = true.
Proof.
  intros Ha Hl. split.
  - destruct (adaptByContentType_trace ParseMediaType configAdapters
                contentType body) as [-> | [name [_ ->]]];
      [reflexivity|]. cbn. rewrite Ha. reflexivity.
  - destruct (marshalEvents_cases json_Marshal warnings) as [-> | [msg ->]];
      [reflexivity|]. cbn. rewrite Hl. reflexivity.
Qed.

(** X6. A POST request whose body cannot be read to the end fails with
    status 400 and the message [reading request body: <cause>]; the
    content type is not looked at, no adapter runs, nothing is written, and
    the buffer goes back to the pool. *)
Theorem X6_body_read_failure (r : Request) (cause : error) :
  Method r = MethodPost ->
  readErr (Body r) = Some cause ->
  exists herr,
    handleAdapt ParseMediaType configAdapters json_Marshal r
    = ([EvPoolGet; EvBufReset; EvCopy (data (Body r)); EvPoolPut],
       Some herr) /\
    HTTPStatusOf herr = Some StatusBadRequest /\
    Error herr = "reading request body: " +:+ Error cause.
Proof.
  intros Hm Hr. rewrite handleAdapt_eq, Hm, Hr.
  eexists. repeat split.
Qed.

(** X7. A POST request that declares no content type (no [Content-Type]
    header, one with no value, or one whose first value is empty) gets its
    body back as it was read, as JSON, with no adapter involved. *)
Theorem X7_no_content_type (r : Request) :
  Method r = MethodPost ->
  readErr (Body r) = None ->
  (Header r !! "Content-Type" = None \/
   Header r !! "Content-Type" = Some [] \/
   exists rest, Header r !! "Content-Type" = Some ("" :: rest)) ->
  handleAdapt ParseMediaType configAdapters json_Marshal r
  = ([EvPoolGet; EvBufReset; EvCopy (data (Body r));
      EvHeaderAdd "Content-Type" "application/json";
      EvWrite (Some (data (Body r))); EvPoolPut], None).
Proof.
  intros Hm Hr Hh.
  assert (E : Header_Get (Header r) "Content-Type" = "").
  { unfold Header_Get. destruct Hh as [-> | [-> | [rest ->]]]; reflexivity. }
  rewrite handleAdapt_eq, Hm, Hr, E. reflexivity.
Qed.

(** X8. Any error the dispatcher returns is handed back by the handler
    unchanged inside an [APIError] of status 400, with the dispatcher's own
    message; this holds for the [malformed Content-Type] error too, which
    carries no status of its own. Nothing is written to the response. *)
Theorem X8_dispatch_error_surfaced (r : Request)
    (result : slice Byte.byte) (warnings : slice Warning) (err : error) :
  let out :=
    adaptByContentType ParseMediaType configAdapters
      (Header_Get (Header r) "Content-Type") (Some (data (Body r))) in
  Method r = MethodPost ->
  readErr (Body r) = None ->
  Header_Get (Header r) "Content-Type" <> "" ->
  value out = (result, warnings, Some err) ->
  handleAdapt ParseMediaType configAdapters json_Marshal r
  = ([EvPoolGet; EvBufReset; EvCopy (data (Body r))] ++ trace out
       ++ [EvPoolPut],
     Some (APIError StatusBadRequest (Some err) "")) /\
  Error (APIError StatusBadRequest (Some err) "") = Error err.
Proof.
  intros out Hm Hr Hh Hv. rewrite handleAdapt_eq, Hm, Hr.
  destruct (String.eqb_spec (Header_Get (Header r) "Content-Type") "")
    as [E|_]; [destruct (Hh E)|].
  cbv zeta. fold out. rewrite Hv. split; reflexivity.
Qed.

End HandlerMore.

(** X9. The handler's return value and everything it does except logging
    are the same whatever [json.Marshal] does with the warnings: the
    warnings reach neither the response nor the error. *)
Theorem X9_warnings_do_not_reach_the_response {any : Type}
    (ParseMediaType : string -> string * option error)
    (configAdapters : gmap string (Adapter any))
    (marshal1 marshal2 : slice Warning -> slice Byte.byte * option error)
    (r : Request) :
  value (handleAdapt ParseMediaType configAdapters marshal1 r)
  = value (handleAdapt ParseMediaType configAdapters marshal2 r) /\
  List.filter (fun e => negb (isLogEvent e))
    (trace (handleAdapt ParseMediaType configAdapters marshal1 r))
  = List.filter (fun e => negb (isLogEvent e))
      (trace (handleAdapt ParseMediaType configAdapters marshal2 r)).
Proof.
  rewrite !handleAdapt_eq.
  destruct (negb (String.eqb (Method r) MethodPost)); [split; reflexivity|].
  destruct (readErr (Body r)); [split; reflexivity|].
  destruct (String.eqb (Header_Get (Header r) "Content-Type") "");
    [split; reflexivity|].
  cbv zeta.
  destruct (adaptByContentType ParseMediaType configAdapters
              (Header_Get (Header r) "Content-Type") (Some (data (Body r))))
    as [t [[result warnings] [err|]]]; [split; reflexivity|].
  split; [reflexivity|]. unfold trace, value. cbn [fst snd].
  rewrite !List.filter_app.
  assert (Hlog : forall m,
             List.filter (fun e => negb (isLogEvent e))
               (marshalEvents m warnings) = []).
  { intros m. destruct (marshalEvents_cases m warnings) as [-> | [msg ->]];
      reflexivity. }
  rewrite !Hlog. reflexivity.
Qed.

(** X10. Buffer discipline. A request that is not a POST touches nothing.
    Every other request takes one buffer from the pool and resets it first,
    and puts it back last, after every adapter call and response write
    that used its bytes. *)
Theorem X10_buffer_taken_once_and_returned_last {any : Type}
    (ParseMediaType : string -> string * option error)
    (configAdapters : gmap string (Adapter any))
    (json_Marshal : slice Warning -> slice Byte.byte * option error)
    (r : Request) :
  let t := trace (handleAdapt ParseMediaType configAdapters json_Marshal r) in
  if String.eqb (Method r) MethodPost
  then exists mid,
         t = [EvPoolGet; EvBufReset] ++ mid ++ [EvPoolPut] /\
         List.forallb (fun e => negb (isPoolEvent e)) mid = true
  else t = [].
Proof.
  intros t. subst t. rewrite handleAdapt_eq.
  destruct (String.eqb (Method r) MethodPost); [|reflexivity]. cbn [negb].
  destruct (readErr (Body r)).
  { exists [EvCopy (data (Body r))]. split; reflexivity. }
  destruct (String.eqb (Header_Get (Header r) "Content-Type") "").
  { eexists [_; _; _]. split; reflexivity. }
  cbv zeta.
  destruct (inner_events ParseMediaType configAdapters json_Marshal
              (fun e => negb (isPoolEvent e))
              (Header_Get (Header r) "Content-Type") (Some (data (Body r)))
              (snd (fst (value
                 (adaptByContentType ParseMediaType configAdapters
                    (Header_Get (Header r) "Content-Type")
                    (Some (data (Body r))))))))
    as [Ht Hl]; [reflexivity | reflexivity |].
  destruct (adaptByContentType ParseMediaType configAdapters
              (Header_Get (Header r) "Content-Type") (Some (data (Body r))))
    as [t [[result warnings] [err|]]]; unfold trace, value in *;
    cbn [fst snd] in *.
  - exists (EvCopy (data (Body r)) :: t). split; [reflexivity|].
    cbn. exact Ht.
  - exists (EvCopy (data (Body r)) :: t
              ++ marshalEvents json_Marshal warnings
              ++ [EvHeaderAdd "Content-Type" "application/json";
                  EvWrite result]).
    split.
    + cbn. rewrite <- !app_assoc. reflexivity.
    + cbn. apply forallb_app_true; [exact Ht|].
      apply forallb_app_true; [exact Hl | reflexivity].
Qed.

(** X11. The response is written exactly when the handler succeeds. On
    success the JSON content type is added once and one body is written
    right after it, as the last thing before the buffer goes back; on an
    error no header is added and nothing is written. *)
Theorem X11_response_written_iff_success {any : Type}
    (ParseMediaType : string -> string * option error)
    (configAdapters : gmap string (Adapter any))
    (json_Marshal : slice Warning -> slice Byte.byte * option error)
    (r : Request) :
  let out := handleAdapt ParseMediaType configAdapters json_Marshal r in
  match value out with
  | None =>
      exists before p,
        trace out
        = before ++ [EvHeaderAdd "Content-Type" "application/json";
                     EvWrite p; EvPoolPut] /\
        List.forallb (fun e => negb (isResponseEvent e)) before = true
  | Some _ =>
      List.forallb (fun e => negb (isResponseEvent e)) (trace out) = true
  end.
Proof.
  intros out. subst out. rewrite handleAdapt_eq.
  destruct (negb (String.eqb (Method r) MethodPost)); [reflexivity|].
  destruct (readErr (Body r)); [reflexivity|].
  destruct (String.eqb (Header_Get (Header r) "Content-Type") "").
  { eexists [_; _; _], _. split; reflexivity. }
  cbv zeta.
  destruct (inner_events ParseMediaType configAdapters json_Marshal
              (fun e => negb (isResponseEvent e))
              (Header_Get (Header r) "Content-Type") (Some (data (Body r)))
              (snd (fst (value
                 (adaptByContentType ParseMediaType configAdapters
                    (Header_Get (Header r) "Content-Type")
                    (Some (data (Body r))))))))
    as [Ht Hl]; [reflexivity | reflexivity |].
  destruct (adaptByContentType ParseMediaType configAdapters
              (Header_Get (Header r) "Content-Type") (Some (data (Body r))))
    as [t [[result warnings] [err|]]]; unfold trace, value in *;
    cbn [fst snd] in *.
  - cbn. apply forallb_app_true; [exact Ht | reflexivity].
  - exists ([EvPoolGet; EvBufReset; EvCopy (data (Body r))] ++ t
              ++ marshalEvents json_Marshal warnings), result.
    split.
    + rewrite <- !app_assoc. reflexivity.
    + cbn. apply forallb_app_true; [exact Ht | exact Hl].
Qed.

(** X12. Every error the handler returns is an [APIError] with a cause and
    an empty message, so its text is the text of the cause. Its status is
    405 when the method is not POST and 400 otherwise. *)
Theorem X12_handler_error_statuses {any : Type}
    (ParseMediaType : string -> string * option error)
    (configAdapters : gmap string (Adapter any))
    (json_Marshal : slice Warning -> slice Byte.byte * option error)
    (r : Request) (herr : error) :
  value (handleAdapt ParseMediaType configAdapters json_Marshal r)
  = Some herr ->
  exists cause,
    herr = APIError (if String.eqb (Method r) MethodPost
                     then StatusBadRequest else StatusMethodNotAllowed)
             (Some cause) "" /\
    Error herr = Error cause.
Proof.
  rewrite handleAdapt_eq.
  destruct (String.eqb (Method r) MethodPost); cbn [negb].
  2:{ intros [= <-]. eexists. split; reflexivity. }
  destruct (readErr (Body r)).
  { intros [= <-]. eexists. split; reflexivity. }
  destruct (String.eqb (Header_Get (Header r) "Content-Type") "");
    [discriminate|].
  cbv zeta.
  destruct (adaptByContentType ParseMediaType configAdapters
              (Header_Get (Header r) "Content-Type") (Some (data (Body r))))
    as [t [[result warnings] [err|]]]; [|discriminate].
  intros [= <-]. eexists. split; reflexivity.
Qed.

(** ** Media types accepted by [mime.ParseMediaType] *)

Lemma append_nil_r (s : string) : s +:+ "" = s.
Proof.
  induction s as [|c s IH]; [reflexivity|].
  change (String c (s +:+ "") = String c s). f_equal. exact IH.
Qed.

Lemma tokenChar_not_slash (c : ascii) :
  mime.isTokenChar c = true -> Ascii.eqb "/" c = false.
Proof.
  destruct c as [[] [] [] [] [] [] [] []]; vm_compute; intros H;
    first [reflexivity | discriminate H].
Qed.

(** A token holds no slash. *)
Lemma token_no_slash (t : string) :
  Strings.forallb mime.isTokenChar t = true ->
  Strings.index_from t "/" = None.
Proof.
  induction t as [|c t IH]; [reflexivity|].
  cbn [Strings.forallb]. intros H. apply andb_prop in H as [Hc Ht].
  rewrite index_from_byte, (tokenChar_not_slash c Hc), (IH Ht). reflexivity.
Qed.

(** [consumeToken] splits its input into a token and a rest that does not
    start with a token character. *)
Lemma consumeToken_spec (v : string) :
  v = fst (mime.consumeToken v) +:+ snd (mime.consumeToken v) /\
  Strings.forallb mime.isTokenChar (fst (mime.consumeToken v)) = true.
Proof.
  induction v as [|c v [IH1 IH2]]; [split; reflexivity|].
  cbn [mime.consumeToken]. destruct (mime.isTokenChar c) eqn:Hc.
  - destruct (mime.consumeToken v) as [token rest]. cbn [fst snd] in *.
    split.
    + change (String c v = String c (token +:+ rest)). f_equal. exact IH1.
    + cbn [Strings.forallb]. rewrite Hc, IH2. reflexivity.
  - split; reflexivity.
Qed.

(** What [checkMediaTypeDisposition] lets through: a token, or two tokens
    with a slash between them. *)
Lemma checkMediaTypeDisposition_shape (s : string) :
  mime.checkMediaTypeDisposition s = None ->
  exists typ,
    typ <> "" /\ Strings.forallb mime.isTokenChar typ = true /\
    (s = typ \/
     exists subtype,
       subtype <> "" /\
       Strings.forallb mime.isTokenChar subtype = true /\
       s = typ +:+ String "/" subtype).
Proof.
  unfold mime.checkMediaTypeDisposition.
  destruct (consumeToken_spec s) as [Hs Htok].
  destruct (mime.consumeToken s) as [typ rest]. cbn [fst snd] in *.
  destruct (String.eqb_spec typ "") as [|Hne]; [discriminate|].
  destruct (String.eqb_spec rest "") as [->|Hrest].
  { intros _. exists typ. rewrite append_nil_r in Hs. auto. }
  destruct rest as [|c r]; [contradiction|].
  unfold Strings.HasPrefix. rewrite prefix_byte.
  destruct (Ascii.eqb_spec "/" c) as [<-|]; [|discriminate]. cbn [negb].
  change (Strings.from 1 (String "/" r)) with r.
  destruct (consumeToken_spec r) as [Hr Hsub].
  destruct (mime.consumeToken r) as [subtype rest2]. cbn [fst snd] in *.
  destruct (String.eqb_spec subtype "") as [|Hne2]; [discriminate|].
  destruct (String.eqb_spec rest2 "") as [->|]; [|discriminate].
  intros _. rewrite append_nil_r in Hr. subst r.
  exists typ. split; [exact Hne|]. split; [exact Htok|]. right.
  exists subtype. auto.
Qed.

Lemma index_from_app (a : ascii) (s t : string) :
  Strings.index_from s (String a "") = None ->
  Strings.index_from (s +:+ String a t) (String a "")
  = Some (String.length s).
Proof.
  induction s as [|c s IH].
  - intros _. change ("" +:+ String a t) with (String a t).
    rewrite index_from_byte, Ascii.eqb_refl. reflexivity.
  - rewrite index_from_byte.
    change (String c s +:+ String a t) with (String c (s +:+ String a t)).
    rewrite index_from_byte.
    destruct (Ascii.eqb a c); [discriminate|].
    destruct (Strings.index_from s (String a "")); [discriminate|].
    intros _. rewrite (IH eq_refl). reflexivity.
Qed.

Lemma drop_app_S (a : ascii) (s t : string) :
  Strings.drop (S (String.length s)) (s +:+ String a t) = t.
Proof. induction s as [|c s IH]; [destruct t; reflexivity | exact IH]. Qed.

(** The adapter name of [typ/subtype], for a type without a slash. *)
Lemma adapterNameOf_app (typ subtype : string) :
  Strings.index_from typ "/" = None ->
  0 <= Strings.Index (typ +:+ String "/" subtype) "/" /\
  adapterNameOf (typ +:+ String "/" subtype) = subtype.
Proof.
  intros H. pose proof (index_from_app "/" typ subtype H) as Hi. split.
  - unfold Strings.Index. rewrite Hi. lia.
  - rewrite (adapterNameOf_drop _ _ Hi). apply drop_app_S.
Qed.

(** The first slash is the first one. *)
Lemma first_slash_minimal (s t : string) (i k : nat) :
  Strings.index_from s "/" = Some i ->
  Strings.drop k s = String "/" t ->
  (i <= k)%nat.
Proof.
  revert i k. induction s as [|c s IH]; intros i k; [discriminate|].
  rewrite index_from_byte. destruct (Ascii.eqb_spec "/" c) as [<-|Hne].
  - intros [= <-] _. lia.
  - destruct (Strings.index_from s "/") as [j|] eqn:E; [|discriminate].
    intros Hi. cbn in Hi. injection Hi as <-.
    destruct k as [|k].
    + intros [= Hc _]. congruence.
    + intros Hd. pose proof (IH j k eq_refl Hd). lia.
Qed.

Lemma drop_add (a b : nat) (s : string) :
  Strings.drop (a + b) s = Strings.drop b (Strings.drop a s).
Proof.
  revert s. induction a as [|a IH]; intros s; [reflexivity|].
  destruct s as [|c s]; [destruct b; reflexivity | apply IH].
Qed.

(** For [typ/subtype] with two slash-free parts, ending in [/json] is the
    same as having the subtype [json]. *)
Lemma HasSuffix_json_subtype (typ subtype : string) :
  Strings.index_from typ "/" = None ->
  Strings.index_from subtype "/" = None ->
  Strings.HasSuffix (typ +:+ String "/" subtype) "/json" = true <->
  subtype = "json".
Proof.
  intros Ht Hsub. split.
  - unfold Strings.HasSuffix. intros H. apply andb_prop in H as [_ H].
    apply String.eqb_eq in H.
    set (k := (String.length (typ +:+ String "/" subtype)
               - String.length "/json")%nat) in H.
    pose proof (index_from_app "/" typ subtype Ht) as Hi.
    pose proof (first_slash_minimal _ _ _ k Hi H) as Hle.
    destruct (Nat.eq_dec k (String.length typ)) as [E|Hne].
    + rewrite E in H.
      replace (String.length typ) with (String.length typ + 0)%nat in H
        by lia.
      rewrite drop_add, drop_app_length in H. cbn in H.
      injection H as H. exact H.
    + replace k
        with (S (String.length typ) + (k - S (String.length typ)))%nat in H
        by lia.
      rewrite drop_add, drop_app_S in H.
      destruct (drop_slash_index _ _ _ H) as [j Hj]. congruence.
  - intros ->. apply (HasSuffix_app typ "/json").
Qed.

(** A media type returned without error passed [checkMediaTypeDisposition]. *)
Lemma ParseMediaType_checked (uL uT : string -> string)
    (mp : string -> mime.paramsOutcome) (v ct : string) :
  mime.ParseMediaType uL uT mp v = (ct, None) ->
  mime.checkMediaTypeDisposition ct = None.
Proof.
  rewrite ParseMediaType_baseOf. cbv zeta.
  destruct (mime.checkMediaTypeDisposition _) eqn:E; [discriminate|].
  destruct (0 <? _)%nat; [|intros [= <-]; exact E].
  destruct (mp _); intros [= <-]; exact E.
Qed.

Lemma baseOf_idem (v : string) : baseOf (baseOf v) = baseOf v.
Proof.
  induction v as [|c v IH]; [reflexivity|].
  rewrite (baseOf_cons c v). destruct (Ascii.eqb ";" c) eqn:E; [reflexivity|].
  rewrite baseOf_cons, E, IH. reflexivity.
Qed.

Lemma drop_length (s : string) : Strings.drop (String.length s) s = "".
Proof. induction s as [|c s IH]; [reflexivity | exact IH]. Qed.

(** X13. With Go's MIME parser, the name the dispatcher extracts from a
    parsed media type that holds a slash is a MIME token: not empty, made
    of token characters only, with no further slash; the media type is
    [type/name] for a token [type]. The body is passed through untouched
    exactly when that name is [json]. *)
Theorem X13_adapter_name_is_a_token
    (Map_unicode_ToLower TrimFunc_unicode_IsSpace : string -> string)
    (mediaParams : string -> mime.paramsOutcome) (v ct : string) :
  mime.ParseMediaType Map_unicode_ToLower TrimFunc_unicode_IsSpace
    mediaParams v = (ct, None) ->
  0 <= Strings.Index ct "/" ->
  adapterNameOf ct <> "" /\
  Strings.forallb mime.isTokenChar (adapterNameOf ct) = true /\
  Strings.Index (adapterNameOf ct) "/" < 0 /\
  (exists typ,
     typ <> "" /\ Strings.forallb mime.isTokenChar typ = true /\
     ct = typ +:+ "/" +:+ adapterNameOf ct) /\
  (Strings.HasSuffix ct "/json" = true <-> adapterNameOf ct = "json").
Proof.
  intros Hp Hi. apply ParseMediaType_checked in Hp.
  destruct (checkMediaTypeDisposition_shape ct Hp)
    as (typ & Hne & Htyp & [-> | (subtype & Hne2 & Hsub & ->)]).
  { unfold Strings.Index in Hi. rewrite (token_no_slash typ Htyp) in Hi. lia. }
  pose proof (token_no_slash typ Htyp) as Ht.
  pose proof (token_no_slash subtype Hsub) as Hs.
  destruct (adapterNameOf_app typ subtype Ht) as [_ ->].
  split; [exact Hne2|]. split; [exact Hsub|]. split.
  { unfold Strings.Index. rewrite Hs. lia. }
  split; [exists typ; auto|].
  apply HasSuffix_json_subtype; assumption.
Qed.

(** X14. With Go's MIME parser, parameters that parse have no effect on
    the dispatch: a content type with a non-empty media-type portion gives
    the same result as that portion alone. *)
Theorem X14_parameters_are_ignored {any : Type}
    (Map_unicode_ToLower TrimFunc_unicode_IsSpace : string -> string)
    (mediaParams : string -> mime.paramsOutcome)
    (configAdapters : gmap string (Adapter any))
    (v : string) (body : slice Byte.byte) :
  let parse :=
    mime.ParseMediaType Map_unicode_ToLower TrimFunc_unicode_IsSpace
      mediaParams in
  baseOf v <> "" ->
  mediaParams (Strings.drop (String.length (baseOf v)) v) = mime.ParamsOk ->
  adaptByContentType parse configAdapters v body
  = adaptByContentType parse configAdapters (baseOf v) body.
Proof.
  intros parse Hb Hok.
  assert (Hp : parse v = parse (baseOf v)).
  { subst parse. rewrite !ParseMediaType_baseOf, baseOf_idem, drop_length.
    cbv zeta. rewrite Hok.
    destruct (mime.checkMediaTypeDisposition _); [reflexivity|].
    change (0 <? String.length "")%nat with false. cbv iota.
    destruct (0 <? _)%nat; reflexivity. }
  rewrite !adaptByContentType_eq, Hp.
  destruct (String.eqb_spec (baseOf v) "") as [E|_]; [destruct (Hb E)|].
  destruct (String.eqb_spec v "") as [->|_]; [destruct (Hb eq_refl)|].
  reflexivity.
Qed.

(** X15. With Go's MIME parser, a content type whose parameter section does
    not parse is refused with status 400 whatever its media type,
    [application/json] included: the body is not passed through and no
    adapter is called. *)
Theorem X15_bad_parameters_are_refused {any : Type}
    (Map_unicode_ToLower TrimFunc_unicode_IsSpace : string -> string)
    (mediaParams : string -> mime.paramsOutcome)
    (configAdapters : gmap string (Adapter any))
    (v : string) (body : slice Byte.byte) :
  let parse :=
    mime.ParseMediaType Map_unicode_ToLower TrimFunc_unicode_IsSpace
      mediaParams in
  let rest := Strings.drop (String.length (baseOf v)) v in
  rest <> "" ->
  mediaParams rest <> mime.ParamsOk ->
  exists err msg,
    adaptByContentType parse configAdapters v body
    = ([], (None, None, Some err)) /\
    HTTPStatusOf err = Some StatusBadRequest /\
    Error err = "invalid Content-Type: " +:+ msg.
Proof.
  intros parse rest Hrest Hbad.
  assert (Hv : v <> "") by (intros ->; apply Hrest; reflexivity).
  assert (Hp : exists perr, snd (parse v) = Some perr).
  { subst parse. rewrite ParseMediaType_baseOf. cbv zeta. fold rest.
    destruct (mime.checkMediaTypeDisposition _); [cbn; eauto|].
    destruct rest as [|c rest']; [contradiction|].
    change (0 <? String.length (String c rest'))%nat with true. cbv iota.
    destruct (mediaParams (String c rest')); [contradiction | |];
      cbn; eauto. }
  destruct Hp as [perr Hp].
  rewrite adaptByContentType_eq.
  destruct (String.eqb_spec v "") as [E|_]; [destruct (Hv E)|].
  destruct (parse v) as [ct o]. cbn in Hp. subst o.
  eexists _, (Error perr). repeat split.
Qed.

(** ** End to end *)

Section EndToEnd.

Context {any : Type}.
Variable ParseMediaType : string -> string * option error.
Variable configAdapters : gmap string (Adapter any).
Variable json_Marshal : slice Warning -> slice Byte.byte * option error.

(** X16. What a successful request writes to the response is the request
    body itself, or the output of a successful call of a registered adapter
    on the request body; nothing else is ever written. *)
Theorem X16_response_body (r : Request) (p : slice Byte.byte) :
  value (handleAdapt ParseMediaType configAdapters json_Marshal r) = None ->
  EvWrite p
    ∈ trace (handleAdapt ParseMediaType configAdapters json_Marshal r) ->
  p = Some (data (Body r)) \/
  exists name cfgAdapter warnings,
    configAdapters !! name = Some cfgAdapter /\
    Adapt cfgAdapter (Some (data (Body r))) None = (p, warnings, None).
Proof.
  rewrite handleAdapt_eq.
  destruct (negb (String.eqb (Method r) MethodPost)); [discriminate|].
  destruct (readErr (Body r)); [discriminate|].
  destruct (String.eqb (Header_Get (Header r) "Content-Type") "").
  { intros _ Hin. cbn in Hin. left.
    repeat (apply elem_of_cons in Hin as [Hin|Hin]; [try discriminate|]).
    - injection Hin as ->. reflexivity.
    - inversion Hin. }
  cbv zeta. rewrite adaptByContentType_eq.
  set (body := Some (data (Body r))).
  assert (Hwrite : forall t result,
             (forall e, e ∈ t -> isResponseEvent e = false) ->
             EvWrite p
               ∈ [EvPoolGet; EvBufReset; EvCopy (data (Body r))] ++ t
                   ++ [EvHeaderAdd "Content-Type" "application/json";
                       EvWrite result; EvPoolPut] ->
             p = result).
  { intros t result Ht Hin. cbn in Hin.
    repeat (apply elem_of_cons in Hin as [Hin|Hin]; [discriminate|]).
    apply elem_of_app in Hin as [Hin|Hin].
    { apply Ht in Hin. discriminate. }
    repeat (apply elem_of_cons in Hin as [Hin|Hin]; [try discriminate|]).
    - injection Hin as ->. reflexivity.
    - inversion Hin. }
  assert (Hlog : forall warnings e,
             e ∈ marshalEvents json_Marshal warnings ->
             isResponseEvent e = false).
  { intros warnings e.
    destruct (marshalEvents_cases json_Marshal warnings) as [-> | [msg ->]].
    - intros Hin. inversion Hin.
    - rewrite list_elem_of_singleton. intros ->. reflexivity. }
  destruct (String.eqb (Header_Get (Header r) "Content-Type") "").
  { unfold value, trace. cbn [fst snd]. intros _ Hin. left.
    apply (Hwrite ([] ++ marshalEvents json_Marshal None) body);
      [apply Hlog | rewrite <- app_assoc; exact Hin]. }
  destruct (ParseMediaType (Header_Get (Header r) "Content-Type"))
    as [ct [perr|]]; [discriminate|].
  destruct (Strings.HasSuffix ct "/json").
  { unfold value, trace. cbn [fst snd]. intros _ Hin. left.
    apply (Hwrite ([] ++ marshalEvents json_Marshal None) body);
      [apply Hlog | rewrite <- app_assoc; exact Hin]. }
  destruct (Strings.Index ct "/" <? 0); [discriminate|].
  destruct (configAdapters !! adapterNameOf ct) as [cfgAdapter|] eqn:E;
    [|discriminate].
  destruct (Adapt cfgAdapter body None) as [[result warnings] [cause|]]
    eqn:R; [discriminate|].
  unfold value, trace. cbn [fst snd]. intros _ Hin. right.
  exists (adapterNameOf ct), cfgAdapter, warnings. split; [exact E|].
  rewrite (Hwrite ([EvAdapt (adapterNameOf ct) body]
                     ++ marshalEvents json_Marshal warnings) result).
  - exact R.
  - intros e He. apply elem_of_app in He as [He|He]; [|exact (Hlog _ _ He)].
    apply list_elem_of_singleton in He as ->. reflexivity.
  - rewrite <- app_assoc. exact Hin.
Qed.

(** X17. An adapter is only ever called for a POST request whose body was
    read to the end without error, on that whole body, and it is an adapter
    the registry binds: a body cut short never reaches an adapter. *)
Theorem X17_adapter_sees_the_whole_body (r : Request) (name : string)
    (b : slice Byte.byte) :
  EvAdapt name b
    ∈ trace (handleAdapt ParseMediaType configAdapters json_Marshal r) ->
  Method r = MethodPost /\
  readErr (Body r) = None /\
  b = Some (data (Body r)) /\
  is_Some (configAdapters !! name).
Proof.
  rewrite handleAdapt_eq.
  destruct (String.eqb_spec (Method r) MethodPost) as [Hm|_];
    [|intros Hin; inversion Hin].
  cbn [negb]. destruct (readErr (Body r)) as [cause|].
  { intros Hin. cbn in Hin.
    repeat (apply elem_of_cons in Hin as [Hin|Hin]; [discriminate|]).
    inversion Hin. }
  destruct (String.eqb (Header_Get (Header r) "Content-Type") "").
  { intros Hin. cbn in Hin.
    repeat (apply elem_of_cons in Hin as [Hin|Hin]; [discriminate|]).
    inversion Hin. }
  cbv zeta.
  pose proof (adaptByContentType_trace ParseMediaType configAdapters
                (Header_Get (Header r) "Content-Type")
                (Some (data (Body r)))) as Ht.
  destruct (adaptByContentType ParseMediaType configAdapters
              (Header_Get (Header r) "Content-Type") (Some (data (Body r))))
    as [t [[result warnings] err]].
  unfold trace, value in *. cbn [fst snd] in *.
  assert (Hin_t : EvAdapt name b ∈ t ->
                  b = Some (data (Body r)) /\
                  is_Some (configAdapters !! name)).
  { destruct Ht as [-> | [name' [Hreg ->]]]; [intros Hin; inversion Hin|].
    rewrite list_elem_of_singleton. intros [= -> ->]. auto. }
  assert (Hlog : EvAdapt name b ∉ marshalEvents json_Marshal warnings).
  { destruct (marshalEvents_cases json_Marshal warnings) as [-> | [msg ->]].
    - apply not_elem_of_nil.
    - rewrite list_elem_of_singleton. discriminate. }
  intros Hin. split; [exact Hm|]. split; [reflexivity|].
  apply Hin_t. destruct err as [err|]; cbn in Hin;
    repeat (apply elem_of_cons in Hin as [Hin|Hin]; [discriminate|]);
    apply elem_of_app in Hin as [Hin|Hin]; try exact Hin.
  - repeat (apply elem_of_cons in Hin as [Hin|Hin]; [discriminate|]).
    inversion Hin.
  - apply elem_of_app in Hin as [Hin|Hin]; [destruct (Hlog Hin)|].
    repeat (apply elem_of_cons in Hin as [Hin|Hin]; [discriminate|]).
    inversion Hin.
Qed.

End EndToEnd.

(** ** The further properties at concrete inputs *)

Lemma X1_witness :
  exists err,
    adaptByContentType Sample.ParseMediaType Sample.configAdapters
      "a/b/c" (Some Sample.yaml_a1)
    = ([], (None, None, Some err)) /\
    HTTPStatusOf err = Some 400 /\
    Error err
    = "invalid Content-Type: mime: unexpected content after media subtype".
Proof.
  apply (X1_invalid_content_type Sample.ParseMediaType Sample.configAdapters
           "a/b/c" ""
           (errorString "mime: unexpected content after media subtype")
           (Some Sample.yaml_a1)).
  - discriminate.
  - vm_compute. reflexivity.
Defined.


Lemma X5_witness :
  Some Sample.yaml_a1 = Some Sample.yaml_a1 /\
  is_Some (Sample.configAdapters !! "yaml") /\
  exists typ,
    fst (Sample.ParseMediaType "application/yaml") = typ +:+ "/" +:+ "yaml" /\
    Strings.Index typ "/" < 0.
Proof.
  apply (X5_adapter_call Sample.ParseMediaType Sample.configAdapters
           "application/yaml" (Some Sample.yaml_a1) (Some Sample.yaml_a1)
           "yaml").
  vm_compute. constructor.
Defined.

Lemma X6_witness :
  exists herr,
    handleAdapt Sample.ParseMediaType Sample.configAdapters Sample.marshalOk
      (Sample2.cutRequest "application/yaml" Sample.yaml_a1)
    = ([EvPoolGet; EvBufReset; EvCopy Sample.yaml_a1; EvPoolPut],
       Some herr) /\
    HTTPStatusOf herr = Some 400 /\
    Error herr = "reading request body: unexpected EOF".
Proof.
  apply (X6_body_read_failure Sample.ParseMediaType Sample.configAdapters
           Sample.marshalOk
           (Sample2.cutRequest "application/yaml" Sample.yaml_a1)
           (errorString "unexpected EOF")); reflexivity.
Defined.

Lemma X7_witness :
  handleAdapt Sample.ParseMediaType Sample.configAdapters Sample.marshalOk
    (Sample2.bareRequest Sample.yaml_a1)
  = ([EvPoolGet; EvBufReset; EvCopy Sample.yaml_a1;
      EvHeaderAdd "Content-Type" "application/json";
      EvWrite (Some Sample.yaml_a1); EvPoolPut], None).
Proof.
  apply (X7_no_content_type Sample.ParseMediaType Sample.configAdapters
           Sample.marshalOk (Sample2.bareRequest Sample.yaml_a1)).
  - reflexivity.
  - reflexivity.
  - left. vm_compute. reflexivity.
Defined.

Lemma X8_witness :
  handleAdapt Sample.ParseMediaType Sample.configAdapters Sample.marshalOk
    (Sample.request "POST" "yaml" Sample.yaml_a1)
  = ([EvPoolGet; EvBufReset; EvCopy Sample.yaml_a1; EvPoolPut],
     Some (APIError 400 (Some (errorString "malformed Content-Type")) "")) /\
  Error (APIError 400 (Some (errorString "malformed Content-Type")) "")
  = "malformed Content-Type".
Proof.
  apply (X8_dispatch_error_surfaced Sample.ParseMediaType
           Sample.configAdapters Sample.marshalOk
           (Sample.request "POST" "yaml" Sample.yaml_a1) None None
           (errorString "malformed Content-Type")).
  - reflexivity.
  - reflexivity.
  - vm_compute. discriminate.
  - vm_compute. reflexivity.
Defined.

Lemma X12_witness :
  exists cause,
    APIError 405 (Some (errorString "method not allowed")) ""
    = APIError 405 (Some cause) "" /\
    Error (APIError 405 (Some (errorString "method not allowed")) "")
    = Error cause.
Proof.
  apply (X12_handler_error_statuses Sample.ParseMediaType
           Sample.configAdapters Sample.marshalOk
           (Sample.request "PUT" "application/yaml" Sample.yaml_a1)
           (APIError 405 (Some (errorString "method not allowed")) "")).
  vm_compute. reflexivity.
Defined.

Lemma X13_witness :
  adapterNameOf "text/x-yaml" <> "" /\
  Strings.forallb mime.isTokenChar (adapterNameOf "text/x-yaml") = true /\
  Strings.Index (adapterNameOf "text/x-yaml") "/" < 0 /\
  (exists typ,
     typ <> "" /\ Strings.forallb mime.isTokenChar typ = true /\
     "text/x-yaml" = typ +:+ "/" +:+ adapterNameOf "text/x-yaml") /\
  (Strings.HasSuffix "text/x-yaml" "/json" = true <->
   adapterNameOf "text/x-yaml" = "json").
Proof.
  apply (X13_adapter_name_is_a_token (fun s => s) (fun s => s)
           (fun _ => mime.ParamsOk) " Text/X-Yaml ; q=1" "text/x-yaml").
  - vm_compute. reflexivity.
  - vm_compute. discriminate.
Defined.

Lemma X14_witness :
  adaptByContentType Sample.ParseMediaType Sample.configAdapters
    "application/yaml; charset=utf-8" (Some Sample.yaml_a1)
  = adaptByContentType Sample.ParseMediaType Sample.configAdapters
      "application/yaml" (Some Sample.yaml_a1).
Proof.
  apply (X14_parameters_are_ignored (fun s => s) (fun s => s)
           (fun _ => mime.ParamsOk) Sample.configAdapters
           "application/yaml; charset=utf-8" (Some Sample.yaml_a1)).
  - vm_compute. discriminate.
  - reflexivity.
Defined.

Lemma X15_witness :
  exists err msg,
    adaptByContentType Sample2.strictParse Sample.configAdapters
      "application/json; charset" (Some Sample.json_a1)
    = ([], (None, None, Some err)) /\
    HTTPStatusOf err = Some 400 /\
    Error err = "invalid Content-Type: " +:+ msg.
Proof.
  apply (X15_bad_parameters_are_refused (fun s => s) (fun s => s)
           (fun _ => mime.ParamsInvalid) Sample.configAdapters
           "application/json; charset" (Some Sample.json_a1)).
  - vm_compute. discriminate.
  - discriminate.
Defined.

Lemma X16_witness :
  Some Sample.json_a1 = Some Sample.yaml_a1 \/
  exists name cfgAdapter warnings,
    Sample.configAdapters !! name = Some cfgAdapter /\
    Adapt cfgAdapter (Some Sample.yaml_a1) None
    = (Some Sample.json_a1, warnings, None).
Proof.
  apply (X16_response_body Sample.ParseMediaType Sample.configAdapters
           Sample.marshalOk
           (Sample.request "POST" "application/yaml" Sample.yaml_a1)
           (Some Sample.json_a1)).
  - vm_compute. reflexivity.
  - vm_compute. do 6 constructor.
Defined.

Lemma X17_witness :
  MethodPost = MethodPost /\
  @None error = None /\
  Some Sample.yaml_a1 = Some Sample.yaml_a1 /\
  is_Some (Sample.configAdapters !! "yaml").
Proof.
  apply (X17_adapter_sees_the_whole_body Sample.ParseMediaType
           Sample.configAdapters Sample.marshalOk
           (Sample.request "POST" "application/yaml" Sample.yaml_a1)
           "yaml" (Some Sample.yaml_a1)).
  vm_compute. do 4 constructor.
Defined.

(** ** The dispatcher and the case of the media type *)

Lemma existsb_trimLeft (p : ascii -> bool) (s : string) :
  Strings.existsb p s = false -> Strings.existsb p (Strings.trimLeft s) = false.
Proof.
  induction s as [|c s IH]; [reflexivity|]. intros H.
  cbn [Strings.trimLeft]. destruct (Strings.isAsciiSpace c); [|exact H].
  apply IH. cbn in H. apply orb_false_elim in H as [_ H]. exact H.
Qed.

Lemma existsb_trimRight (p : ascii -> bool) (s : string) :
  Strings.existsb p s = false ->
  Strings.existsb p (Strings.trimRight s) = false.
Proof.
  induction s as [|c s IH]; [reflexivity|]. intros H.
  cbn in H. apply orb_false_elim in H as [Hc Hs]. specialize (IH Hs).
  cbn [Strings.trimRight]. destruct (Strings.trimRight s) as [|c' t].
  - destruct (Strings.isAsciiSpace c); [reflexivity|].
    cbn. rewrite Hc. reflexivity.
  - cbn [Strings.existsb]. rewrite Hc. exact IH.
Qed.

Lemma existsb_drop (p : ascii -> bool) (n : nat) (s : string) :
  Strings.existsb p s = false -> Strings.existsb p (Strings.drop n s) = false.
Proof.
  revert s. induction n as [|n IH]; intros s H; [exact H|].
  destruct s as [|c s]; [reflexivity|].
  cbn in H. apply orb_false_elim in H as [_ H]. apply IH, H.
Qed.

Section NoUpperCase.

Variable Map_unicode_ToLower : string -> string.
Variable TrimFunc_unicode_IsSpace : string -> string.

(** What Go's rune-by-rune paths are known to do: lower-casing leaves no
    letter [A]-[Z], and trimming brings none in. *)
Hypothesis ToLower_lower :
  forall s, Strings.existsb Strings.isUpper (Map_unicode_ToLower s) = false.
Hypothesis TrimFunc_keeps :
  forall s,
    Strings.existsb Strings.isUpper s = false ->
    Strings.existsb Strings.isUpper (TrimFunc_unicode_IsSpace s) = false.

Lemma ToLower_no_upper (s : string) :
  Strings.existsb Strings.isUpper (Strings.ToLower Map_unicode_ToLower s)
  = false.
Proof.
  unfold Strings.ToLower. destruct (Strings.isASCII s); [|apply ToLower_lower].
  destruct (Strings.existsb Strings.isUpper s) eqn:E;
    [apply lower_no_upper | exact E].
Qed.

Lemma TrimSpace_no_upper (s : string) :
  Strings.existsb Strings.isUpper s = false ->
  Strings.existsb Strings.isUpper
    (Strings.TrimSpace TrimFunc_unicode_IsSpace s) = false.
Proof.
  intros H. unfold Strings.TrimSpace.
  destruct (Strings.isASCII s); [|apply TrimFunc_keeps, H].
  apply existsb_trimRight, existsb_trimLeft, H.
Qed.

End NoUpperCase.

(** The media type [ParseMediaType] returns is the text before the first
    semicolon, lower-cased and then trimmed. *)
Lemma ParseMediaType_mediatype (uL uT : string -> string)
    (mp : string -> mime.paramsOutcome) (v ct : string) :
  mime.ParseMediaType uL uT mp v = (ct, None) ->
  ct = Strings.TrimSpace uT (Strings.ToLower uL (baseOf v)).
Proof.
  rewrite ParseMediaType_baseOf. cbv zeta.
  destruct (mime.checkMediaTypeDisposition _); [discriminate|].
  destruct (0 <? _)%nat; [|congruence].
  destruct (mp _); congruence.
Qed.

Lemma ParseMediaType_nonempty (uL uT : string -> string)
    (mp : string -> mime.paramsOutcome) (v ct : string) :
  mime.ParseMediaType uL uT mp v = (ct, None) -> v <> "".
Proof. intros H ->. discriminate H. Qed.

(** Parsing sees the media-type portion only through its lower-casing. *)
Lemma ParseMediaType_same (uL uT : string -> string)
    (mp : string -> mime.paramsOutcome) (v v' : string) :
  Strings.ToLower uL (baseOf v) = Strings.ToLower uL (baseOf v') ->
  Strings.drop (String.length (baseOf v)) v
  = Strings.drop (String.length (baseOf v')) v' ->
  mime.ParseMediaType uL uT mp v = mime.ParseMediaType uL uT mp v'.
Proof.
  intros Hl Hr. rewrite !ParseMediaType_baseOf, Hl, Hr. reflexivity.
Qed.

Lemma lookupAndAdapt_eq {any : Type}
    (configAdapters : gmap string (Adapter any)) (name : string)
    (body : slice Byte.byte) :
  lookupAndAdapt configAdapters name body
  = match configAdapters !! name with
    | None =>
        ([], (None, None,
              Some (errorString
                      ("unrecognized config adapter '" +:+ name +:+ "'"))))
    | Some cfgAdapter =>
        ([EvAdapt name body],
         match Adapt cfgAdapter body None with
         | (_, _, Some err) =>
             (None, None,
              Some (errorString
                      ("adapting config using " +:+ name
                         +:+ " adapter: " +:+ Error err)))
         | (result, warnings, None) => (result, warnings, None)
         end)
    end.
Proof.
  unfold lookupAndAdapt, GetAdapter.
  destruct (configAdapters !! name) as [cfgAdapter|]; [|reflexivity].
  unfold callAdapt. cbn.
  destruct (Adapt cfgAdapter body None) as [[result warnings] [err|]];
    reflexivity.
Qed.

Section DispatcherLookup.

Context {any : Type}.
Variable ParseMediaType : string -> string * option error.
Variable configAdapters : gmap string (Adapter any).

(** Past the JSON test and the slash test, the dispatcher is the lookup of
    the adapter name. *)
Lemma adaptByContentType_lookup (contentType ct : string)
    (body : slice Byte.byte) :
  contentType <> "" ->
  ParseMediaType contentType = (ct, None) ->
  Strings.HasSuffix ct "/json" = false ->
  0 <= Strings.Index ct "/" ->
  adaptByContentType ParseMediaType configAdapters contentType body
  = lookupAndAdapt configAdapters (adapterNameOf ct) body.
Proof.
  intros Hne Hp Hj Hi. rewrite adaptByContentType_eq, lookupAndAdapt_eq.
  destruct (String.eqb_spec contentType "") as [E|_]; [destruct (Hne E)|].
  rewrite Hp, Hj.
  destruct (Z.ltb_spec (Strings.Index ct "/") 0); [lia | reflexivity].
Qed.

(** The name in an adapter call is the adapter name of the parsed media
    type. *)
Lemma adaptByContentType_call_name (contentType name : string)
    (body b : slice Byte.byte) :
  EvAdapt name b
    ∈ trace (adaptByContentType ParseMediaType configAdapters
               contentType body) ->
  exists ct,
    ParseMediaType contentType = (ct, None) /\ name = adapterNameOf ct.
Proof.
  rewrite adaptByContentType_eq.
  destruct (String.eqb contentType ""); [intros Hin; inversion Hin|].
  destruct (ParseMediaType contentType) as [ct [perr|]];
    [intros Hin; inversion Hin|].
  destruct (Strings.HasSuffix ct "/json"); [intros Hin; inversion Hin|].
  destruct (Strings.Index ct "/" <? 0); [intros Hin; inversion Hin|].
  destruct (configAdapters !! adapterNameOf ct); [|intros Hin; inversion Hin].
  cbn. rewrite list_elem_of_singleton. intros [= -> _]. eauto.
Qed.

End DispatcherLookup.

(** C10. The dispatcher does not see the case of the media-type portion of
    the content type, because [mime.ParseMediaType] lower-cases it before
    any check.
    - [Application/JSON] passes through like [application/json].
    - [Application/YAML] is dispatched like [application/yaml]: the
      registry is asked for [yaml], the call fails with
      [unrecognized config adapter 'yaml'] when that name is unbound, and
      the adapter bound to [yaml] is the one called when it is bound.
    - For every content type, the parsed media type is the text before the
      first semicolon, lower-cased and trimmed; the registry is asked for
      the adapter name of that lower-cased text, and every adapter call
      carries that name.
    - Two content types whose media-type portions have the same
      lower-casing, with the same parameters, get the same result.
    - Since Go's lower-casing leaves no letter [A]-[Z] and trimming brings
      none in, no parsed media type, no name looked up and no name in an
      adapter call holds an upper-case letter.
    - For a media-type portion in ASCII, the result is that of the content
      type with that portion in lower case, and the name looked up is the
      byte-wise lower-casing of the subtype as it was sent. *)
Theorem C10_media_type_case_insensitive {any : Type}
    (Map_unicode_ToLower TrimFunc_unicode_IsSpace : string -> string)
    (mediaParams : string -> mime.paramsOutcome)
    (configAdapters : gmap string (Adapter any)) (body : slice Byte.byte) :
  let parse :=
    mime.ParseMediaType Map_unicode_ToLower TrimFunc_unicode_IsSpace
      mediaParams in
  let adapt := adaptByContentType parse configAdapters in
  let lowered v :=
    Strings.TrimSpace TrimFunc_unicode_IsSpace
      (Strings.ToLower Map_unicode_ToLower (baseOf v)) in
  (adapt "Application/JSON" body = ([], (body, None, None)) /\
   adapt "Application/JSON" body = adapt "application/json" body) /\
  (parse "Application/YAML" = ("application/yaml", None) /\
   adapterNameOf "application/yaml" = "yaml" /\
   adapt "Application/YAML" body = adapt "application/yaml" body /\
   adapt "Application/YAML" body
   = lookupAndAdapt configAdapters "yaml" body /\
   (configAdapters !! "yaml" = None ->
    adapt "Application/YAML" body
    = ([], (None, None,
            Some (errorString "unrecognized config adapter 'yaml'")))) /\
   (forall cfgAdapter,
      configAdapters !! "yaml" = Some cfgAdapter ->
      trace (adapt "Application/YAML" body) = [EvAdapt "yaml" body] /\
      (forall result warnings,
         Adapt cfgAdapter body None = (result, warnings, None) ->
         value (adapt "Application/YAML" body)
         = (result, warnings, None)))) /\
  (forall v ct : string,
     parse v = (ct, None) ->
     ct = lowered v /\
     (Strings.HasSuffix ct "/json" = true ->
      adapt v body = ([], (body, None, None))) /\
     (Strings.HasSuffix ct "/json" = false ->
      0 <= Strings.Index ct "/" ->
      adapt v body
      = lookupAndAdapt configAdapters (adapterNameOf (lowered v)) body)) /\
  (forall (v name : string) (b : slice Byte.byte),
     EvAdapt name b ∈ trace (adapt v body) ->
     name = adapterNameOf (lowered v)) /\
  (forall v v' : string,
     v <> "" -> v' <> "" ->
     Strings.ToLower Map_unicode_ToLower (baseOf v)
     = Strings.ToLower Map_unicode_ToLower (baseOf v') ->
     Strings.drop (String.length (baseOf v)) v
     = Strings.drop (String.length (baseOf v')) v' ->
     adapt v body = adapt v' body) /\
  ((forall s,
      Strings.existsb Strings.isUpper (Map_unicode_ToLower s) = false) ->
   (forall s,
      Strings.existsb Strings.isUpper s = false ->
      Strings.existsb Strings.isUpper (TrimFunc_unicode_IsSpace s) = false) ->
   (forall v ct : string,
      parse v = (ct, None) ->
      Strings.existsb Strings.isUpper ct = false /\
      Strings.existsb Strings.isUpper (adapterNameOf ct) = false) /\
   (forall (v name : string) (b : slice Byte.byte),
      EvAdapt name b ∈ trace (adapt v body) ->
      Strings.existsb Strings.isUpper name = false)) /\
  (forall v : string,
     Strings.isASCII (baseOf v) = true ->
     adapt v body = adapt (lowerMediaType v) body /\
     forall ct : string,
       parse v = (ct, None) ->
       let trimmed := Strings.trimRight (Strings.trimLeft (baseOf v)) in
       ct = Strings.map Strings.lowerByte trimmed /\
       adapterNameOf ct
       = Strings.map Strings.lowerByte (adapterNameOf trimmed) /\
       Strings.existsb Strings.isUpper (adapterNameOf ct) = false /\
       (Strings.HasSuffix ct "/json" = false ->
        0 <= Strings.Index ct "/" ->
        adapt v body
        = lookupAndAdapt configAdapters
            (Strings.map Strings.lowerByte (adapterNameOf trimmed)) body)).
Proof.
  intros parse adapt lowered.
  assert (Hyaml : adapt "Application/YAML" body
                  = lookupAndAdapt configAdapters "yaml" body).
  { apply (adaptByContentType_lookup parse configAdapters
             "Application/YAML" "application/yaml" body);
      [discriminate | reflexivity | reflexivity | discriminate]. }
  assert (Hcall : forall (v name : string) (b : slice Byte.byte),
             EvAdapt name b ∈ trace (adapt v body) ->
             exists ct, parse v = (ct, None) /\ name = adapterNameOf ct).
  { intros v name b. apply adaptByContentType_call_name. }
  split; [split; reflexivity|]. split; [|split; [|split; [|split; [|split]]]].
  - split; [reflexivity|]. split; [reflexivity|]. split; [reflexivity|].
    split; [exact Hyaml|]. split.
    + intros Hreg. rewrite Hyaml, lookupAndAdapt_eq, Hreg. reflexivity.
    + intros cfgAdapter Hreg. rewrite Hyaml, lookupAndAdapt_eq, Hreg.
      split; [reflexivity|]. intros result warnings Hrun.
      unfold value. cbn [snd]. rewrite Hrun. reflexivity.
  - intros v ct Hp.
    pose proof (ParseMediaType_mediatype _ _ _ v ct Hp) as Hct.
    fold (lowered v) in Hct. split; [exact Hct|]. split.
    + intros Hj. subst adapt. rewrite adaptByContentType_eq.
      destruct (String.eqb v ""); [reflexivity|].
      fold parse. rewrite Hp, Hj. reflexivity.
    + intros Hj Hi. rewrite <- Hct.
      apply adaptByContentType_lookup;
        [exact (ParseMediaType_nonempty _ _ _ v ct Hp) | exact Hp
        | exact Hj | exact Hi].
  - intros v name b Hin. destruct (Hcall v name b Hin) as (ct & Hp & ->).
    rewrite (ParseMediaType_mediatype _ _ _ v ct Hp). reflexivity.
  - intros v v' Hv Hv' Hl Hr. subst adapt.
    rewrite !adaptByContentType_eq.
    destruct (String.eqb_spec v "") as [E|_]; [destruct (Hv E)|].
    destruct (String.eqb_spec v' "") as [E|_]; [destruct (Hv' E)|].
    subst parse. rewrite (ParseMediaType_same _ _ _ v v' Hl Hr).
    reflexivity.
  - intros HL HT.
    assert (Hno : forall v ct,
               parse v = (ct, None) ->
               Strings.existsb Strings.isUpper ct = false).
    { intros v ct Hp. rewrite (ParseMediaType_mediatype _ _ _ v ct Hp).
      apply TrimSpace_no_upper; [exact HT|].
      apply ToLower_no_upper, HL. }
    split.
    + intros v ct Hp. split; [exact (Hno v ct Hp)|].
      apply existsb_drop, (Hno v ct Hp).
    + intros v name b Hin. destruct (Hcall v name b Hin) as (ct & Hp & ->).
      apply existsb_drop, (Hno v ct Hp).
  - intros v Hascii. split.
    + subst adapt. unfold adaptByContentType.
      rewrite lowerMediaType_empty.
      subst parse. rewrite (ParseMediaType_lowerMediaType _ _ _ v Hascii).
      reflexivity.
    + intros ct Hp trimmed.
      pose proof (ParseMediaType_lower _ _ _ v ct Hascii Hp) as Hct.
      fold trimmed in Hct. split; [exact Hct|].
      assert (Hname : adapterNameOf ct
                      = Strings.map Strings.lowerByte
                          (adapterNameOf trimmed)).
      { rewrite Hct. apply adapterNameOf_lower. }
      split; [exact Hname|]. split.
      * rewrite Hname. apply lower_no_upper.
      * intros Hj Hi. rewrite <- Hname.
        apply adaptByContentType_lookup;
          [exact (ParseMediaType_nonempty _ _ _ v ct Hp) | exact Hp
          | exact Hj | exact Hi].
Qed.

Lemma C10_witness :
  let adapt :=
    adaptByContentType Sample2.lowerParse Sample.configAdapters in
  let v := " Text/YAML ; charset=UTF-8" in
  let body := Some Sample.yaml_a1 in
  adapt v body = lookupAndAdapt Sample.configAdapters "yaml" body /\
  adapt v body = adapt " text/yaml ; charset=UTF-8" body /\
  adapt v body = adapt " TEXT/yaml ; charset=UTF-8" body /\
  Strings.existsb Strings.isUpper (adapterNameOf "text/yaml") = false /\
  adapterNameOf "text/yaml" = "yaml".
Proof.
  intros adapt v body.
  destruct (C10_media_type_case_insensitive
              (Strings.map Strings.lowerByte) (fun s => s)
              (fun _ => mime.ParamsOk) Sample.configAdapters body)
    as (_ & _ & Hgen & _ & Hsame & Hno & Hascii).
  destruct (Hgen v "text/yaml" eq_refl) as (_ & _ & Hlook).
  destruct (Hascii v eq_refl) as [Hlow Hkey].
  destruct (Hno lower_no_upper (fun s H => H)) as [Hup _].
  destruct (Hup v "text/yaml" eq_refl) as [_ Hup'].
  destruct (Hkey "text/yaml" eq_refl) as (_ & Hname & _).
  split; [apply Hlook; [reflexivity | vm_compute; discriminate]|].
  split; [exact Hlow|].
  split; [apply Hsame; [discriminate | discriminate | reflexivity
                       | reflexivity]|].
  split; [exact Hup' | exact Hname].
Defined.
